(** * g13gui: the G13 session manager and the LPBM framebuffer encoder

    A shallow embedding of [g13gui/g13/displaydevice.py] (the encoder
    [ImageToLPBM]) and of [g13gui/g13gui/g13/manager.py] (the [Manager]
    thread: guards, command queue, key and stick synthesis, the
    discovery and polling loop), with the properties of the
    specification stated over them. *)

From Stdlib Require Import ZArith List Lia Bool Floats.
From stdpp Require Import base gmap list strings.
Import ListNotations.

Set Warnings "-inexact-float".
Local Open Scope Z_scope.

(** ** Exceptions and results shared by both modules *)

(** The exceptions the embedded code can raise: [IndexError] comes from
    PIL's pixel access, [StructError] from [struct.pack],
    [StateError] from [Manager._ensureState]; [USBError] carries the
    errno of a failed USB call. *)
Inductive exn : Type :=
| IndexError
| StructError
| StateError
| USBError (errno : Z).

Inductive result (A : Type) : Type :=
| Ok (a : A)
| Raise (e : exn).
Arguments Ok {A} a.
Arguments Raise {A} e.

Definition rbind {A B} (r : result A) (k : A -> result B) : result B :=
  match r with
  | Ok a => k a
  | Raise e => Raise e
  end.

Notation "x <-- r ;;; k" := (rbind r (fun x => k))
  (at level 100, r at next level, right associativity).

(** [range(n)] of Python, for [n] known to be an integer. *)
Definition range (n : Z) : list Z := map Z.of_nat (seq 0 (Z.to_nat n)).

Module Display.

(** *** displaydevice.py *)

(** [DisplayMetrics] *)
Definition WIDTH_PIXELS : Z := 160.
Definition HEIGHT_PIXELS : Z := 48.

(** A PIL image in mode ['1']: its size and its pixel values (0 is
    black, 255 is white), read through [im] at in-range coordinates. *)
Record Image : Type := mkImage {
  xsize : Z;
  ysize : Z;
  im : Z -> Z -> Z
}.

(** [image.convert('1')]: for an image that is already in mode ['1'] the
    conversion is a copy; the size never changes. *)
Definition convert_1 (image : Image) : Image := image.

(** [pixels[x, y]] on the access object returned by [image.load()]: a
    negative index counts from the far edge, and a coordinate outside the
    image raises [IndexError]. *)
Definition getitem (pixels : Image) (x y : Z) : result Z :=
  let x := if x <? 0 then xsize pixels + x else x in
  let y := if y <? 0 then ysize pixels + y else y in
  if (x <? 0) || (xsize pixels <=? x) || (y <? 0) || (ysize pixels <=? y)
  then Raise IndexError
  else Ok (im pixels x y).

(** [struct.pack('<B', b)]: one unsigned byte, [struct.error] outside
    0..255. *)
Definition pack_B (b : Z) : result (list Z) :=
  if (0 <=? b) && (b <=? 255) then Ok [b] else Raise StructError.

(** The inner loop, lines 33-36: [for subrow in range(maxSubrow)]. *)
Fixpoint subrow_loop (pixels : Image) (col row : Z) (subrows : list Z) (b : Z)
  : result Z :=
  match subrows with
  | [] => Ok b
  | subrow :: rest =>
      pixel_value <-- getitem pixels col (row + subrow) ;;;
      subrow_loop pixels col row rest
        (Z.lor b (Z.shiftl (if pixel_value =? 0 then 1 else 0) subrow))
  end.

(** The variables the outer loop updates: [row], [col] and the bytes
    written to [bio] so far. *)
Record LoopState : Type := mkLoop {
  row : Z;
  col : Z;
  bio : list Z
}.

(** The body of the outer loop, lines 28-45. *)
Definition byte_step (pixels : Image) (s : LoopState) : result LoopState :=
  let maxSubrow := if row s =? 40 then 3 else 8 in
  b <-- subrow_loop pixels (col s) (row s) (range maxSubrow) 0 ;;;
  packed <-- pack_B b ;;;
  let bio' := bio s ++ packed in
  let col' := col s + 1 in
  if col' mod WIDTH_PIXELS =? 0
  then Ok {| row := row s + 8; col := 0; bio := bio' |}
  else Ok {| row := row s; col := col'; bio := bio' |}.

(** [for byteNum in range(0, maxBytes)], line 27; the body does not read
    [byteNum]. *)
Fixpoint byte_loop (pixels : Image) (byteNums : list Z) (s : LoopState)
  : result LoopState :=
  match byteNums with
  | [] => Ok s
  | _ :: rest => s' <-- byte_step pixels s ;;; byte_loop pixels rest s'
  end.

Definition maxBytes : Z := (WIDTH_PIXELS * HEIGHT_PIXELS) / 8.

Definition ImageToLPBM (image : Image) : result (list Z) :=
  let image := convert_1 image in
  let pixels := image in
  s <-- byte_loop pixels (range maxBytes) {| row := 0; col := 0; bio := [] |} ;;;
  Ok (bio s).

(** *** Reading the output *)

(** The bits the inner loop accumulates when every access succeeds. *)
Definition strip (pixels : Image) (col row : Z) (subrows : list Z) (b : Z) : Z :=
  fold_left
    (fun b subrow =>
       Z.lor b (Z.shiftl (if im pixels col (row + subrow) =? 0 then 1 else 0) subrow))
    subrows b.

(** Output byte [i] as a function of the image. *)
Definition byte_at (pixels : Image) (i : Z) : Z :=
  let band := 8 * (i / WIDTH_PIXELS) in
  strip pixels (i mod WIDTH_PIXELS) band (range (if band =? 40 then 3 else 8)) 0.

(** The images of the round-trip property. *)
Definition black_image : Image := mkImage 160 48 (fun _ _ => 0).
Definition white_image : Image := mkImage 160 48 (fun _ _ => 255).

(** An all-white image one column wider than the display, and an
    all-black one that is one row too low for the last access. *)
Definition wide_image : Image := mkImage 161 48 (fun _ _ => 255).
Definition low_image : Image := mkImage 160 42 (fun _ _ => 0).

(** The bits a byte of the output can carry: eight in the bands at rows
    0..32, three in the band at row 40. *)
Definition band_mask (i : Z) : Z := if i <? 800 then 255 else 7.

(** Where the loop stands before it writes byte [i]. *)
Definition at_byte (i : Z) (s : LoopState) : Prop :=
  row s = 8 * (i / WIDTH_PIXELS) /\ col s = i mod WIDTH_PIXELS.

(** *** Pixel access *)

Lemma Ok_inj {A} (a b : A) : Ok a = Ok b -> a = b.
Proof. intros H. injection H as ->. reflexivity. Qed.

Lemma getitem_in (pixels : Image) (x y : Z) :
  0 <= x < xsize pixels -> 0 <= y < ysize pixels ->
  getitem pixels x y = Ok (im pixels x y).
Proof.
  intros Hx Hy. unfold getitem. cbv zeta.
  rewrite (proj2 (Z.ltb_ge x 0)), (proj2 (Z.ltb_ge y 0)) by lia. cbv iota.
  rewrite (proj2 (Z.ltb_ge x 0)), (proj2 (Z.ltb_ge y 0)) by lia.
  rewrite (proj2 (Z.leb_gt (xsize pixels) x)), (proj2 (Z.leb_gt (ysize pixels) y)) by lia.
  reflexivity.
Qed.

Lemma getitem_ok_inv (pixels : Image) (x y v : Z) :
  0 <= x -> 0 <= y -> getitem pixels x y = Ok v ->
  x < xsize pixels /\ y < ysize pixels.
Proof.
  intros Hx Hy. unfold getitem. cbv zeta.
  rewrite (proj2 (Z.ltb_ge x 0)), (proj2 (Z.ltb_ge y 0)) by lia. cbv iota.
  rewrite (proj2 (Z.ltb_ge x 0)), (proj2 (Z.ltb_ge y 0)) by lia.
  destruct (Z.leb_spec (xsize pixels) x); [discriminate|].
  destruct (Z.leb_spec (ysize pixels) y); [discriminate|]. lia.
Qed.

Lemma getitem_exn (pixels : Image) (x y : Z) (e : exn) :
  getitem pixels x y = Raise e -> e = IndexError.
Proof.
  unfold getitem.
  destruct (_ || _); intros H; [injection H as <-; reflexivity | discriminate].
Qed.

(** *** The inner loop *)

Lemma subrow_loop_in (pixels : Image) (col row : Z) (subrows : list Z) :
  0 <= col < xsize pixels ->
  (forall s, In s subrows -> 0 <= row + s < ysize pixels) ->
  forall b, subrow_loop pixels col row subrows b = Ok (strip pixels col row subrows b).
Proof.
  intros Hc. induction subrows as [|s rest IH]; intros Hin b; [reflexivity|].
  cbn [subrow_loop]. rewrite getitem_in by (auto; apply Hin; left; reflexivity).
  cbn [rbind]. rewrite IH by (intros; apply Hin; right; assumption). reflexivity.
Qed.

Lemma subrow_loop_exn (pixels : Image) (col row : Z) (subrows : list Z) :
  forall b e, subrow_loop pixels col row subrows b = Raise e -> e = IndexError.
Proof.
  induction subrows as [|s rest IH]; intros b e; cbn [subrow_loop]; [discriminate|].
  destruct (getitem pixels col (row + s)) as [v|e'] eqn:Hg; cbn [rbind].
  - apply IH.
  - intros H; injection H as <-. eapply getitem_exn; eassumption.
Qed.

Lemma subrow_loop_ok_inv (pixels : Image) (col row : Z) (subrows : list Z) :
  forall b b', subrow_loop pixels col row subrows b = Ok b' ->
  forall s, In s subrows -> exists v, getitem pixels col (row + s) = Ok v.
Proof.
  induction subrows as [|s0 rest IH]; intros b b' H s Hs; [destruct Hs|].
  cbn [subrow_loop] in H.
  destruct (getitem pixels col (row + s0)) as [v|e] eqn:Hg; cbn [rbind] in H;
    [|discriminate].
  destruct Hs as [<-|Hs]; [eauto | eapply IH; eassumption].
Qed.

Lemma lor_bit_bound (b bit s : Z) :
  0 <= b < 256 -> 0 <= bit <= 1 -> 0 <= s < 8 ->
  0 <= Z.lor b (Z.shiftl bit s) < 256.
Proof.
  intros Hb Hbit Hs.
  assert (Hsh : 0 <= Z.shiftl bit s < 256).
  { rewrite Z.shiftl_mul_pow2 by lia.
    assert (0 < 2 ^ s <= 2 ^ 7) by (split; [apply Z.pow_pos_nonneg; lia | apply Z.pow_le_mono_r; lia]).
    change (2 ^ 7) with 128 in *. nia. }
  split; [apply Z.lor_nonneg; lia|].
  destruct (Z.eq_dec (Z.lor b (Z.shiftl bit s)) 0) as [->|Hne]; [lia|].
  change 256 with (2 ^ 8). apply Z.log2_lt_pow2.
  - assert (0 <= Z.lor b (Z.shiftl bit s)) by (apply Z.lor_nonneg; lia). lia.
  - rewrite Z.log2_lor by lia.
    assert (Hlog : forall a, 0 <= a < 256 -> Z.log2 a < 8).
    { intros a Ha. destruct (Z.eq_dec a 0) as [->|]; [reflexivity|].
      apply Z.log2_lt_pow2; [lia|]. change (2 ^ 8) with 256. lia. }
    apply Z.max_lub_lt; apply Hlog; lia.
Qed.

Lemma subrow_loop_bound (pixels : Image) (col row : Z) (subrows : list Z) :
  (forall s, In s subrows -> 0 <= s < 8) ->
  forall b b', 0 <= b < 256 ->
  subrow_loop pixels col row subrows b = Ok b' -> 0 <= b' < 256.
Proof.
  induction subrows as [|s rest IH]; intros Hin b b' Hb; cbn [subrow_loop].
  - intros H; injection H as <-; assumption.
  - destruct (getitem pixels col (row + s)) as [v|e]; cbn [rbind]; [|discriminate].
    apply IH; [intros; apply Hin; right; assumption|].
    apply lor_bit_bound; [assumption | destruct (v =? 0); lia | apply Hin; left; reflexivity].
Qed.

Lemma In_range (n s : Z) : In s (range n) <-> 0 <= s < n.
Proof.
  unfold range. rewrite in_map_iff. split.
  - intros [k [<- Hk]]. apply in_seq in Hk. lia.
  - intros H. exists (Z.to_nat s). split; [lia|]. apply in_seq. lia.
Qed.

(** *** The outer loop *)

Lemma at_byte_next (i : Z) (s : LoopState) (bio' : list Z) :
  0 <= i -> at_byte i s ->
  at_byte (i + 1)
    (if (col s + 1) mod WIDTH_PIXELS =? 0
     then {| row := row s + 8; col := 0; bio := bio' |}
     else {| row := row s; col := col s + 1; bio := bio' |}).
Proof.
  unfold at_byte, WIDTH_PIXELS. intros Hi [Hr Hc]. rewrite Hr, Hc.
  destruct (Z.eqb_spec ((i mod 160 + 1) mod 160) 0) as [H0|H0]; cbn [row col];
    revert H0; Z.div_mod_to_equations; lia.
Qed.

Lemma maxSubrow_range (r s : Z) :
  In s (range (if r =? 40 then 3 else 8)) -> 0 <= s < 8.
Proof. intros H. apply In_range in H. destruct (r =? 40); lia. Qed.

Lemma pack_B_byte (b : Z) : 0 <= b < 256 -> pack_B b = Ok [b].
Proof.
  intros H. unfold pack_B.
  rewrite (proj2 (Z.leb_le 0 b)), (proj2 (Z.leb_le b 255)) by lia. reflexivity.
Qed.

Lemma byte_step_exn (pixels : Image) (s : LoopState) (e : exn) :
  byte_step pixels s = Raise e -> e = IndexError.
Proof.
  unfold byte_step. cbv zeta.
  destruct (subrow_loop _ _ _ _ _) as [b|e'] eqn:Hs; cbn [rbind].
  - apply subrow_loop_bound in Hs; [|apply maxSubrow_range|lia].
    rewrite pack_B_byte by assumption. cbn [rbind].
    destruct (_ =? 0); discriminate.
  - intros H; injection H as <-. eapply subrow_loop_exn; eassumption.
Qed.

Lemma byte_step_track (pixels : Image) (i : Z) (s s' : LoopState) :
  0 <= i -> at_byte i s -> byte_step pixels s = Ok s' ->
  at_byte (i + 1) s' /\
  exists b, subrow_loop pixels (col s) (row s) (range (if row s =? 40 then 3 else 8)) 0
            = Ok b.
Proof.
  intros Hi Hat. unfold byte_step. cbv zeta.
  destruct (subrow_loop _ _ _ _ _) as [b|e'] eqn:Hs; cbn [rbind]; [|discriminate].
  apply subrow_loop_bound in Hs; [|apply maxSubrow_range|lia].
  rewrite pack_B_byte by assumption. cbn [rbind].
  pose proof (at_byte_next i s (bio s ++ [b]) Hi Hat) as Hn.
  destruct (_ =? 0); intros H; injection H as <-; (split; [exact Hn|]);
    exists b; reflexivity.
Qed.

Lemma byte_step_in (pixels : Image) (i : Z) (s : LoopState) :
  0 <= i < 960 -> at_byte i s ->
  160 <= xsize pixels -> 43 <= ysize pixels ->
  exists s', byte_step pixels s = Ok s' /\ at_byte (i + 1) s' /\
             bio s' = bio s ++ [byte_at pixels i].
Proof.
  intros Hi Hat Hx Hy. pose proof Hat as [Hr Hc]. unfold WIDTH_PIXELS in Hr, Hc.
  assert (Hin : subrow_loop pixels (col s) (row s)
                  (range (if row s =? 40 then 3 else 8)) 0 = Ok (byte_at pixels i)).
  { unfold byte_at, WIDTH_PIXELS. cbv zeta. rewrite <- Hr, <- Hc.
    apply subrow_loop_in.
    - rewrite Hc. pose proof (Z.mod_pos_bound i 160). lia.
    - intros k Hk. apply In_range in Hk.
      assert (0 <= i / 160 <= 5) by (Z.div_mod_to_equations; lia).
      destruct (Z.eqb_spec (row s) 40); lia. }
  unfold byte_step. cbv zeta. rewrite Hin. cbn [rbind].
  apply subrow_loop_bound in Hin; [|apply maxSubrow_range|lia].
  rewrite pack_B_byte by assumption. cbn [rbind].
  pose proof (at_byte_next i s (bio s ++ [byte_at pixels i]) ltac:(lia) Hat) as Hn.
  destruct (_ =? 0); eexists; (split; [reflexivity|]); split; try exact Hn; reflexivity.
Qed.

Lemma byte_loop_app (pixels : Image) (l1 l2 : list Z) :
  forall s, byte_loop pixels (l1 ++ l2) s
            = (s1 <-- byte_loop pixels l1 s ;;; byte_loop pixels l2 s1).
Proof.
  induction l1 as [|x l1 IH]; intros s; [reflexivity|].
  cbn [app byte_loop]. destruct (byte_step pixels s); cbn [rbind]; [apply IH | reflexivity].
Qed.

Lemma byte_loop_exn (pixels : Image) (l : list Z) :
  forall s e, byte_loop pixels l s = Raise e -> e = IndexError.
Proof.
  induction l as [|x l IH]; intros s e; cbn [byte_loop]; [discriminate|].
  destruct (byte_step pixels s) as [s'|e'] eqn:Hs; cbn [rbind].
  - apply IH.
  - intros H; injection H as <-. eapply byte_step_exn; eassumption.
Qed.

Lemma byte_loop_track (pixels : Image) (l : list Z) :
  forall i s s', 0 <= i -> at_byte i s -> byte_loop pixels l s = Ok s' ->
  at_byte (i + Z.of_nat (length l)) s'.
Proof.
  induction l as [|x l IH]; intros i s s' Hi Hat; cbn [byte_loop].
  - intros H; injection H as <-. cbn. rewrite Z.add_0_r. assumption.
  - destruct (byte_step pixels s) as [s1|e] eqn:Hs; cbn [rbind]; [|discriminate].
    intros H. apply (byte_step_track pixels i) in Hs as [Hs _]; [|assumption..].
    apply (IH (i + 1)) in H; [|lia|assumption].
    replace (i + Z.of_nat (length (x :: l))) with (i + 1 + Z.of_nat (length l))
      by (cbn [length]; lia).
    assumption.
Qed.

Lemma byte_loop_in (pixels : Image) (l : list Z) :
  160 <= xsize pixels -> 43 <= ysize pixels ->
  forall i s, 0 <= i -> i + Z.of_nat (length l) <= 960 -> at_byte i s ->
  exists s', byte_loop pixels l s = Ok s' /\
             bio s' = bio s ++ map (fun k => byte_at pixels (i + Z.of_nat k))
                                   (seq 0 (length l)).
Proof.
  intros Hx Hy. induction l as [|x l IH]; intros i s Hi Hle Hat; cbn [byte_loop].
  - exists s. split; [reflexivity|]. cbn. rewrite app_nil_r. reflexivity.
  - cbn [length] in Hle.
    destruct (byte_step_in pixels i s) as (s1 & -> & Hat1 & Hb1); [lia|assumption..|].
    cbn [rbind].
    destruct (IH (i + 1) s1) as (s' & -> & Hb'); [lia|lia|assumption|].
    exists s'. split; [reflexivity|].
    rewrite Hb', Hb1, <- app_assoc. f_equal. cbn [length seq map app].
    rewrite Z.add_0_r. f_equal. rewrite <- seq_shift, map_map.
    apply map_ext. intros k. f_equal. lia.
Qed.

(** With every accessed pixel inside the image the encoder returns the
    960 bytes [byte_at pixels 0 .. byte_at pixels 959]. *)
Lemma ImageToLPBM_in (image : Image) :
  160 <= xsize image -> 43 <= ysize image ->
  ImageToLPBM image = Ok (map (byte_at image) (range 960)).
Proof.
  intros Hx Hy. unfold ImageToLPBM, convert_1. cbv zeta.
  destruct (byte_loop_in image (range maxBytes) Hx Hy 0 (mkLoop 0 0 []))
    as (s' & -> & Hb).
  - lia.
  - vm_compute. discriminate.
  - split; reflexivity.
  - cbn [rbind]. rewrite Hb. cbn [bio app]. unfold range at 2. rewrite map_map.
    reflexivity.
Qed.

(** The encoder raises nothing but [IndexError]. *)
Lemma ImageToLPBM_exn (image : Image) (e : exn) :
  ImageToLPBM image = Raise e -> e = IndexError.
Proof.
  unfold ImageToLPBM. cbv zeta.
  destruct (byte_loop _ _ _) as [s|e'] eqn:Hl; cbn [rbind]; [discriminate|].
  intros H; injection H as <-. eapply byte_loop_exn; eassumption.
Qed.

(** When the loop stands at byte [i] of a run that succeeds, the first
    [n] accesses of that byte's strip were inside the image. *)
Lemma byte_loop_access (pixels : Image) (i : Z) (out : list Z) :
  0 <= i < 960 -> ImageToLPBM pixels = Ok out ->
  forall k, In k (range (if 8 * (i / 160) =? 40 then 3 else 8)) ->
  exists v, getitem pixels (i mod 160) (8 * (i / 160) + k) = Ok v.
Proof.
  intros Hi. unfold ImageToLPBM, convert_1. cbv zeta.
  destruct (byte_loop _ _ _) as [s|e'] eqn:Hl; cbn [rbind]; [|discriminate].
  intros _ k Hk.
  assert (Hsplit : range maxBytes
                   = firstn (Z.to_nat i) (range maxBytes) ++ skipn (Z.to_nat i) (range maxBytes))
    by (symmetry; apply firstn_skipn).
  assert (Hlen : length (range maxBytes) = 960%nat) by reflexivity.
  rewrite Hsplit, byte_loop_app in Hl.
  destruct (byte_loop pixels (firstn _ _) _) as [s1|e1] eqn:H1; cbn [rbind] in Hl;
    [|discriminate].
  apply (byte_loop_track pixels _ 0) in H1; [|lia|split; reflexivity].
  rewrite length_firstn, Hlen, Nat.min_l in H1 by lia.
  replace (0 + Z.of_nat (Z.to_nat i)) with i in H1 by lia.
  destruct (skipn (Z.to_nat i) (range maxBytes)) as [|x rest] eqn:Hsk.
  { apply (f_equal (@length Z)) in Hsk. rewrite length_skipn, Hlen in Hsk.
    cbn [length] in Hsk. lia. }
  cbn [byte_loop] in Hl.
  destruct (byte_step pixels s1) as [s2|e2] eqn:H2; cbn [rbind] in Hl; [|discriminate].
  apply (byte_step_track pixels i) in H2 as [_ [b H2]]; [|lia|assumption].
  destruct H1 as [Hr Hc]. unfold WIDTH_PIXELS in Hr, Hc. rewrite Hr, Hc in H2.
  eapply subrow_loop_ok_inv; eassumption.
Qed.

(** A run that succeeds read column 159 and row 42: the image is at least
    160 wide and 43 high. *)
Lemma ImageToLPBM_ok_inv (image : Image) (out : list Z) :
  ImageToLPBM image = Ok out -> 160 <= xsize image /\ 43 <= ysize image.
Proof.
  intros H. split.
  - destruct (byte_loop_access image 159 out ltac:(lia) H 0) as [v Hv].
    { change (8 * (159 / 160) =? 40) with false. apply In_range. lia. }
    change (159 mod 160) with 159 in Hv. change (8 * (159 / 160) + 0) with 0 in Hv.
    apply getitem_ok_inv in Hv; lia.
  - destruct (byte_loop_access image 800 out ltac:(lia) H 2) as [v Hv].
    { change (8 * (800 / 160) =? 40) with true. apply In_range. lia. }
    change (800 mod 160) with 0 in Hv. change (8 * (800 / 160) + 2) with 42 in Hv.
    apply getitem_ok_inv in Hv; lia.
Qed.

(** *** The bits of an output byte *)

Lemma testbit_flag (c : bool) (j : Z) :
  Z.testbit (if c then 1 else 0) j = c && (j =? 0).
Proof.
  destruct c; [|rewrite Z.bits_0; reflexivity].
  destruct j as [|j|j]; reflexivity.
Qed.

Lemma strip_testbit (pixels : Image) (col row : Z) (subrows : list Z) :
  forall b k, 0 <= k ->
  Z.testbit (strip pixels col row subrows b) k
  = Z.testbit b k
    || existsb (fun s => (s =? k) && (im pixels col (row + s) =? 0)) subrows.
Proof.
  unfold strip. induction subrows as [|s rest IH]; intros b k Hk; cbn [fold_left existsb].
  - rewrite orb_false_r. reflexivity.
  - rewrite IH by assumption. rewrite Z.lor_spec, Z.shiftl_spec by assumption.
    rewrite testbit_flag, <- orb_assoc. f_equal. f_equal.
    rewrite andb_comm. f_equal.
    destruct (Z.eqb_spec (k - s) 0), (Z.eqb_spec s k); lia || reflexivity.
Qed.

Lemma existsb_range (f : Z -> bool) (n k : Z) :
  0 <= k ->
  existsb (fun s => (s =? k) && f s) (range n) = (k <? n) && f k.
Proof.
  intros Hk. apply eq_true_iff_eq. rewrite existsb_exists, andb_true_iff, Z.ltb_lt.
  split.
  - intros [s [Hs H]]. apply In_range in Hs. apply andb_true_iff in H as [He Hf].
    apply Z.eqb_eq in He. subst s. split; [lia | assumption].
  - intros [Hlt Hf]. exists k. split; [apply In_range; lia|].
    rewrite Z.eqb_refl. assumption.
Qed.

Lemma byte_at_testbit (pixels : Image) (i k : Z) :
  0 <= k ->
  Z.testbit (byte_at pixels i) k
  = (k <? (if 8 * (i / 160) =? 40 then 3 else 8))
    && (im pixels (i mod 160) (8 * (i / 160) + k) =? 0).
Proof.
  intros Hk. unfold byte_at, WIDTH_PIXELS. cbv zeta.
  rewrite strip_testbit by assumption. rewrite Z.bits_0. cbn [orb].
  apply (existsb_range (fun s => im pixels (i mod 160) (8 * (i / 160) + s) =? 0)).
  assumption.
Qed.

Lemma byte_at_bound (pixels : Image) (i : Z) : 0 <= byte_at pixels i < 256.
Proof.
  unfold byte_at. cbv zeta.
  set (c := i mod WIDTH_PIXELS). set (r := 8 * (i / WIDTH_PIXELS)).
  assert (H : forall subs b, (forall s, In s subs -> 0 <= s < 8) -> 0 <= b < 256 ->
                             0 <= strip pixels c r subs b < 256).
  { unfold strip. induction subs as [|s rest IH]; intros b Hin Hb; cbn [fold_left].
    - assumption.
    - apply IH; [intros; apply Hin; right; assumption|].
      apply lor_bit_bound; [assumption | destruct (_ =? 0); lia | apply Hin; left; reflexivity]. }
  apply H; [apply maxSubrow_range | lia].
Qed.

Lemma strip_ext (p q : Image) (col row : Z) (subrows : list Z) :
  (forall s, In s subrows -> im p col (row + s) = im q col (row + s)) ->
  forall b, strip p col row subrows b = strip q col row subrows b.
Proof.
  unfold strip. induction subrows as [|s rest IH]; intros Hin b; cbn [fold_left];
    [reflexivity|].
  rewrite (Hin s) by (left; reflexivity). apply IH. intros; apply Hin; right; assumption.
Qed.

(** Two images that agree on columns 0..159 of rows 0..42 have the same
    output bytes. *)
Lemma byte_at_ext (p q : Image) (i : Z) :
  0 <= i < 960 ->
  (forall x y, 0 <= x < 160 -> 0 <= y < 43 -> im p x y = im q x y) ->
  byte_at p i = byte_at q i.
Proof.
  intros Hi Hpq. unfold byte_at, WIDTH_PIXELS. cbv zeta. apply strip_ext.
  intros s Hs. apply In_range in Hs.
  assert (0 <= i / 160 <= 5) by (Z.div_mod_to_equations; lia).
  pose proof (Z.mod_pos_bound i 160 ltac:(lia)).
  apply Hpq; [lia|]. destruct (Z.eqb_spec (8 * (i / 160)) 40); lia.
Qed.

Lemma nth_map_range {A} (f : Z -> A) (n i : Z) (d : A) :
  0 <= i < n -> nth (Z.to_nat i) (map f (range n)) d = f i.
Proof.
  intros Hi. unfold range. rewrite map_map.
  rewrite (nth_indep _ d (f (Z.of_nat 0)))
    by (rewrite length_map, length_seq; lia).
  rewrite (map_nth (fun k => f (Z.of_nat k))), seq_nth by lia.
  f_equal. lia.
Qed.

Lemma length_map_range {A} (f : Z -> A) (n : Z) :
  length (map f (range n)) = Z.to_nat n.
Proof. unfold range. rewrite !length_map, length_seq. reflexivity. Qed.

(** *** The claims about the encoder *)

(** C1, as stated, fails: an image that is 161 pixels wide is not the
    device's size, and the encoder returns 960 bytes for it. *)
Lemma ImageToLPBM_accepts_other_size :
  (xsize wide_image, ysize wide_image) <> (WIDTH_PIXELS, HEIGHT_PIXELS) /\
  ImageToLPBM wide_image = Ok (repeat 0 960).
Proof. split; [discriminate | vm_compute; reflexivity]. Qed.

(** C1, amended: the encoder checks no dimensions. It returns its 960
    bytes, read from columns 0..159 and rows 0..42, exactly when the
    image is at least 160 wide and 43 high; otherwise the pixel access
    raises [IndexError] and no bytes are returned. *)
Theorem ImageToLPBM_size_behaviour (image : Image) :
  (160 <= xsize image /\ 43 <= ysize image <->
   ImageToLPBM image = Ok (map (byte_at image) (range 960))) /\
  (xsize image < 160 \/ ysize image < 43 <->
   ImageToLPBM image = Raise IndexError) /\
  (forall out, ImageToLPBM image = Ok out -> length out = 960%nat).
Proof.
  assert (Hok : 160 <= xsize image /\ 43 <= ysize image ->
                ImageToLPBM image = Ok (map (byte_at image) (range 960)))
    by (intros [Hx Hy]; apply ImageToLPBM_in; assumption).
  split; [|split].
  - split; [exact Hok | apply ImageToLPBM_ok_inv].
  - split.
    + intros Hsmall. destruct (ImageToLPBM image) as [out|e] eqn:H.
      * apply ImageToLPBM_ok_inv in H. lia.
      * apply ImageToLPBM_exn in H. subst e. reflexivity.
    + intros H.
      destruct (Z.lt_ge_cases (xsize image) 160); [left; assumption|].
      destruct (Z.lt_ge_cases (ysize image) 43); [right; assumption|].
      rewrite Hok in H by lia. discriminate.
  - intros out H. pose proof (ImageToLPBM_ok_inv image out H) as Hdim.
    rewrite (Hok Hdim) in H. apply Ok_inj in H. subst out. apply length_map_range.
Qed.

(** An image that is too low is refused by the pixel access, not by a
    check of its size. *)
Example ImageToLPBM_low_image : ImageToLPBM low_image = Raise IndexError.
Proof. vm_compute. reflexivity. Qed.

(** C6: for an image of the device's size the output has 960 bytes; byte
    [i] holds the strip at column [i mod 160] of the band at row
    [8 * (i / 160)], bit [k] set exactly when pixel (col, band + k) is
    0; in the band at row 40 only bits 0..2 are filled and bits 3..7
    are 0. *)
Theorem ImageToLPBM_layout (image : Image) :
  xsize image = WIDTH_PIXELS -> ysize image = HEIGHT_PIXELS ->
  exists out,
    ImageToLPBM image = Ok out /\
    Z.of_nat (length out) = WIDTH_PIXELS * HEIGHT_PIXELS / 8 /\
    length out = 960%nat /\
    forall i, 0 <= i < 960 ->
      let byte := nth (Z.to_nat i) out 0 in
      let col := i mod WIDTH_PIXELS in
      let rowband := 8 * (i / WIDTH_PIXELS) in
      0 <= byte < 256 /\
      (forall k, 0 <= k < 8 -> rowband <> 40 \/ k < 3 ->
                 Z.testbit byte k = (im image col (rowband + k) =? 0)) /\
      (rowband = 40 -> forall k, 3 <= k <= 7 -> Z.testbit byte k = false).
Proof.
  unfold WIDTH_PIXELS, HEIGHT_PIXELS. intros Hx Hy.
  exists (map (byte_at image) (range 960)).
  split; [apply ImageToLPBM_in; lia|].
  rewrite length_map_range. split; [reflexivity|]. split; [reflexivity|].
  intros i Hi. cbv zeta. rewrite nth_map_range by assumption.
  split; [apply byte_at_bound|]. split.
  - intros k Hk Hband. rewrite byte_at_testbit by lia.
    destruct (Z.eqb_spec (8 * (i / 160)) 40) as [E|E].
    + rewrite (proj2 (Z.ltb_lt k 3)) by lia. reflexivity.
    + rewrite (proj2 (Z.ltb_lt k 8)) by lia. reflexivity.
  - intros E k Hk. rewrite byte_at_testbit by lia.
    rewrite E, Z.eqb_refl, (proj2 (Z.ltb_ge k 3)) by lia. reflexivity.
Qed.

Lemma ImageToLPBM_layout_witness :
  xsize black_image = WIDTH_PIXELS /\ ysize black_image = HEIGHT_PIXELS /\
  exists out,
    ImageToLPBM black_image = Ok out /\
    Z.of_nat (length out) = WIDTH_PIXELS * HEIGHT_PIXELS / 8 /\
    length out = 960%nat /\
    forall i, 0 <= i < 960 ->
      let byte := nth (Z.to_nat i) out 0 in
      let col := i mod WIDTH_PIXELS in
      let rowband := 8 * (i / WIDTH_PIXELS) in
      0 <= byte < 256 /\
      (forall k, 0 <= k < 8 -> rowband <> 40 \/ k < 3 ->
                 Z.testbit byte k = (im black_image col (rowband + k) =? 0)) /\
      (rowband = 40 -> forall k, 3 <= k <= 7 -> Z.testbit byte k = false).
Proof.
  split; [reflexivity|]. split; [reflexivity|].
  apply (ImageToLPBM_layout black_image); reflexivity.
Defined.

(** C7, as stated, fails: the all-black image is encoded neither to
    all-0x00 nor to all-0xFF (its last 160 bytes are 0x07), and the
    all-white image, encoded to all-0x00, is not its byte-wise
    complement. *)
Lemma ImageToLPBM_black_not_uniform :
  ImageToLPBM black_image = Ok (repeat 255 800 ++ repeat 7 160) /\
  ImageToLPBM white_image = Ok (repeat 0 960) /\
  repeat 255 800 ++ repeat 7 160 <> repeat 0 960 /\
  repeat 255 800 ++ repeat 7 160 <> repeat 255 960 /\
  repeat 0 960 <> map (fun b => Z.lxor b 255) (repeat 255 800 ++ repeat 7 160).
Proof.
  split; [vm_compute; reflexivity|]. split; [vm_compute; reflexivity|].
  repeat split; intros H; apply (f_equal (fun l => nth 800 l 0)) in H;
    vm_compute in H; discriminate.
Qed.

(** C7, amended: an all-black image of the device's size is encoded to
    960 bytes with every filled bit set, 0xFF in the first 800 bytes and
    0x07 in the last 160; an all-white one to 960 bytes 0x00, the
    complement of the black output on the filled bits [band_mask]. *)
Theorem ImageToLPBM_black_white (black white : Image) :
  xsize black = WIDTH_PIXELS -> ysize black = HEIGHT_PIXELS ->
  xsize white = WIDTH_PIXELS -> ysize white = HEIGHT_PIXELS ->
  (forall x y, 0 <= x < WIDTH_PIXELS -> 0 <= y < HEIGHT_PIXELS -> im black x y = 0) ->
  (forall x y, 0 <= x < WIDTH_PIXELS -> 0 <= y < HEIGHT_PIXELS -> im white x y = 255) ->
  exists outb outw,
    ImageToLPBM black = Ok outb /\ ImageToLPBM white = Ok outw /\
    Z.of_nat (length outb) = WIDTH_PIXELS * HEIGHT_PIXELS / 8 /\
    Z.of_nat (length outw) = WIDTH_PIXELS * HEIGHT_PIXELS / 8 /\
    outb = repeat 255 800 ++ repeat 7 160 /\
    outw = repeat 0 960 /\
    outw = map (fun ib => Z.lxor (snd ib) (band_mask (fst ib)))
               (combine (range 960) outb).
Proof.
  unfold WIDTH_PIXELS, HEIGHT_PIXELS. intros Hbx Hby Hwx Hwy Hb Hw.
  assert (Eb : map (byte_at black) (range 960) = repeat 255 800 ++ repeat 7 160).
  { transitivity (map (byte_at black_image) (range 960)); [|vm_compute; reflexivity].
    apply map_ext_in. intros i Hi. apply In_range in Hi.
    apply byte_at_ext; [assumption|]. intros x y Hx0 Hy0. apply Hb; lia. }
  assert (Ew : map (byte_at white) (range 960) = repeat 0 960).
  { transitivity (map (byte_at white_image) (range 960)); [|vm_compute; reflexivity].
    apply map_ext_in. intros i Hi. apply In_range in Hi.
    apply byte_at_ext; [assumption|]. intros x y Hx0 Hy0. apply Hw; lia. }
  exists (map (byte_at black) (range 960)), (map (byte_at white) (range 960)).
  split; [apply ImageToLPBM_in; lia|]. split; [apply ImageToLPBM_in; lia|].
  rewrite Eb, Ew. repeat split; vm_compute; reflexivity.
Qed.

Lemma ImageToLPBM_black_white_witness :
  exists outb outw,
    ImageToLPBM black_image = Ok outb /\ ImageToLPBM white_image = Ok outw /\
    Z.of_nat (length outb) = WIDTH_PIXELS * HEIGHT_PIXELS / 8 /\
    Z.of_nat (length outw) = WIDTH_PIXELS * HEIGHT_PIXELS / 8 /\
    outb = repeat 255 800 ++ repeat 7 160 /\
    outw = repeat 0 960 /\
    outw = map (fun ib => Z.lxor (snd ib) (band_mask (fst ib)))
               (combine (range 960) outb).
Proof.
  apply (ImageToLPBM_black_white black_image white_image);
    try reflexivity; intros; reflexivity.
Defined.

(** *** Reading pixels back, cropping and inversion *)



















End Display.

Module Manager.

(** *** manager.py: constants *)

Definition REPORT_SIZE : Z := 8.
Definition LCD_BUFFER_SIZE : Z := 0x3C0.

(** [errno.ETIMEDOUT], [usb.util] and [evdev.ecodes] constants, and the
    values of [G13Endpoints]. *)
Definition ETIMEDOUT : Z := 110.
Definition CTRL_IN : Z := 0x80.
Definition CTRL_OUT : Z := 0x00.
Definition CTRL_TYPE_CLASS : Z := 0x20.
Definition CTRL_RECIPIENT_INTERFACE : Z := 0x01.
Definition G13Endpoints_KEY : Z := 1.
Definition G13Endpoints_LCD : Z := 2.
Definition EV_KEY : Z := 1.
Definition EV_ABS : Z := 3.
Definition ABS_X : Z := 0.
Definition ABS_Y : Z := 1.

(** [Manager.State] *)
Inductive State : Type := DISCOVERING | FOUND | SHUTDOWN.

Definition State_eqb (a b : State) : bool :=
  match a, b with
  | DISCOVERING, DISCOVERING | FOUND, FOUND | SHUTDOWN, SHUTDOWN => true
  | _, _ => false
  end.

(** [StickMode] of [g13gui.model.bindings]: the three members the
    manager compares with. *)
Inductive StickMode : Type := ABSOLUTE | RELATIVE | KEYS.

(** The object [usb.core.find] returns. *)
Inductive Device : Type := Dev (address : Z).

(** An entry of [_commandQueue]: the bound method and its arguments. *)
Inductive Command : Type :=
| SetLedsMode (leds : Z)
| SetBacklightColor (r g b : Z)
| SetLCDBuffer (buffer : list Z).

(** The calls made on the USB device, in the order they were made. *)
Inductive UsbCall : Type :=
| DevReset
| DisposeResources
| IsKernelDriverActive
| DetachKernelDriver
| SetConfiguration
| DevRead (endpoint : Z)
| CtrlTransfer (bmRequestType bRequest wValue wIndex : Z) (data : list Z)
| DevWrite (endpoint : Z) (data : list Z).

(** The calls made on [self._uinput]. *)
Inductive UinputCall : Type :=
| UWrite (etype code value : Z)
| USyn.

(** A stick region: the 4-tuple [(x0, y0, x1, y1)] of floats. *)
Definition Region : Type := float * float * float * float.

(** [joy >= lo and joy <= hi], lines 234-235. *)
Definition within (joy lo hi : float) : bool :=
  PrimFloat.leb lo joy && PrimFloat.leb joy hi.

(** Lines 234-236: [nowPressed] of a region for the normalised stick
    position. *)
Definition inRegion (joy_x joy_y : float) (region : Region) : bool :=
  let '(r0, r1, r2, r3) := region in
  let inX := within joy_x r0 r2 in
  let inY := within joy_y r1 r3 in
  inX && inY.

(** [joy / 255] for a report byte: Python's true division of integers. *)
Definition normalise (joy : Z) : float :=
  PrimFloat.div (PrimFloat.of_uint63 (Uint63.of_Z joy)) 255%float.

Section WithKeys.

(** The keys of [_lastKeyState] and the arguments of [keyBinding]: the
    members of [G13NormalKeys] and the names of the stick regions. *)
Context {Ident : Type} `{Countable Ident}.

(** [G13NormalKeys] and its method [testReport] are defined in
    [g13gui.g13.common], which is not among the sources: the members of
    the enumeration in iteration order, and the bit test of a key on a
    report. *)
Variable G13NormalKeys : list Ident.
Variable testReport : Ident -> list Z -> bool.

(** What [self._prefs.selectedProfile()] offers to the manager. *)
Record Profile : Type := mkProfile {
  stickMode : StickMode;
  stickRegions : list (Ident * Region);
  keyBinding : Ident -> list Z
}.

(** The attributes of [Manager] that the methods below read or write.
    [_uinput] stands for the virtual keyboard and [usb_calls] for the
    device: each is the list of the calls made on it so far. *)
Record Manager : Type := mkManager {
  _state : State;
  _device : option Device;
  _lastKeyState : gmap Ident bool;
  _commandQueue : list Command;
  _uinput : list UinputCall;
  usb_calls : list UsbCall
}.

Definition set_state (st : State) (m : Manager) : Manager :=
  mkManager st (_device m) (_lastKeyState m) (_commandQueue m) (_uinput m) (usb_calls m).
Definition set_device (d : option Device) (m : Manager) : Manager :=
  mkManager (_state m) d (_lastKeyState m) (_commandQueue m) (_uinput m) (usb_calls m).
Definition set_lastKeyState (key : Ident) (pressed : bool) (m : Manager) : Manager :=
  mkManager (_state m) (_device m) (<[key := pressed]> (_lastKeyState m))
            (_commandQueue m) (_uinput m) (usb_calls m).
Definition set_commandQueue (q : list Command) (m : Manager) : Manager :=
  mkManager (_state m) (_device m) (_lastKeyState m) q (_uinput m) (usb_calls m).
Definition uinput_call (c : UinputCall) (m : Manager) : Manager :=
  mkManager (_state m) (_device m) (_lastKeyState m) (_commandQueue m)
            (_uinput m ++ [c]) (usb_calls m).
Definition usb_call (c : UsbCall) (m : Manager) : Manager :=
  mkManager (_state m) (_device m) (_lastKeyState m) (_commandQueue m)
            (_uinput m) (usb_calls m ++ [c]).

(** [Manager.__init__] *)
Definition init : Manager := mkManager DISCOVERING None ∅ [] [] [].

(** *** The operations other threads call *)

(** A method of the manager: it returns or raises, and leaves a manager
    behind in both cases. *)
Definition Method (A : Type) : Type := Manager -> result A * Manager.

Definition mret {A} (a : A) : Method A := fun m => (Ok a, m).
Definition mraise {A} (e : exn) : Method A := fun m => (Raise e, m).
Definition mbind {A B} (f : Method A) (k : A -> Method B) : Method B :=
  fun m => match f m with
           | (Ok a, m') => k a m'
           | (Raise e, m') => (Raise e, m')
           end.

Definition _ensureState (state : State) : Method unit :=
  fun m => if State_eqb (_state m) state then mret tt m else mraise StateError m.

(** [self._commandQueue.put(...)] *)
Definition put (c : Command) : Method unit :=
  fun m => (Ok tt, set_commandQueue (_commandQueue m ++ [c]) m).

Definition setLedsMode (leds : Z) : Method unit :=
  mbind (_ensureState FOUND) (fun _ => put (SetLedsMode leds)).

Definition setBacklightColor (r g b : Z) : Method unit :=
  mbind (_ensureState FOUND) (fun _ => put (SetBacklightColor r g b)).

Definition setLCDBuffer (buffer : list Z) : Method unit :=
  mbind (_ensureState FOUND) (fun _ => put (SetLCDBuffer buffer)).

Definition shutdown : Method unit :=
  fun m => (Ok tt, set_state SHUTDOWN m).

(** *** Synthesis of key events *)

(** [for code in binding: self._uinput.write(e.EV_KEY, code, value)] *)
Definition write_codes (binding : list Z) (value : Z) (m : Manager) : Manager :=
  fold_left (fun m code => uinput_call (UWrite EV_KEY code value) m) binding m.

(** Lines 238-245 and 260-267: the edge test shared by keys and stick
    regions, with the update of [_lastKeyState]. *)
Definition press (key : Ident) (binding : list Z) (nowPressed : bool) (m : Manager)
  : Manager :=
  let wasPressed := default false (_lastKeyState m !! key) in
  let m :=
    if negb wasPressed && nowPressed then write_codes binding 1 m
    else if wasPressed && negb nowPressed then write_codes binding 0 m
    else m in
  set_lastKeyState key nowPressed m.

(** The body of the loop of [_synthesizeKeys], lines 256-267. *)
Definition synthesizeKey (profile : Profile) (report : list Z) (m : Manager)
  (key : Ident) : Manager :=
  let binding := keyBinding profile key in
  let nowPressed := testReport key report in
  press key binding nowPressed m.

Definition _synthesizeKeys (profile : Profile) (report : list Z) (m : Manager)
  : Manager :=
  fold_left (synthesizeKey profile report) G13NormalKeys m.

(** The body of the loop over [regions.items()], lines 232-245. *)
Definition synthesizeRegion (profile : Profile) (joy_x joy_y : float) (m : Manager)
  (item : Ident * Region) : Manager :=
  let '(name, region) := item in
  let binding := keyBinding profile name in
  let nowPressed := inRegion joy_x joy_y region in
  press name binding nowPressed m.

Definition _synthesizeStick (profile : Profile) (report : list Z) (m : Manager)
  : Manager :=
  let joy_x := nth 1 report 0 in
  let joy_y := nth 2 report 0 in
  match stickMode profile with
  | KEYS =>
      let regions := stickRegions profile in
      let joy_x := normalise joy_x in
      let joy_y := normalise joy_y in
      fold_left (synthesizeRegion profile joy_x joy_y) regions m
  | RELATIVE => m
  | ABSOLUTE =>
      uinput_call (UWrite EV_ABS ABS_Y joy_y)
        (uinput_call (UWrite EV_ABS ABS_X joy_x) m)
  end.

(** *** The commands as the session thread runs them *)

Definition _setLedsMode (leds : Z) : UsbCall :=
  let data := [5; leds; 0; 0; 0] in
  let type := Z.lor CTRL_TYPE_CLASS CTRL_RECIPIENT_INTERFACE in
  CtrlTransfer type 9 0x305 0 data.

Definition _setBacklightColor (r g b : Z) : UsbCall :=
  let data := [5; r; g; b; 0] in
  let type := Z.lor CTRL_TYPE_CLASS CTRL_RECIPIENT_INTERFACE in
  CtrlTransfer type 9 0x307 0 data.

Definition _setLCDBuffer (buffer : list Z) : UsbCall :=
  let header := 0x03 :: repeat 0 31 in
  DevWrite (Z.lor CTRL_OUT G13Endpoints_LCD) (header ++ buffer).

(** [fn( *args)], line 190: the USB call a queued command makes. *)
Definition call_of (c : Command) : UsbCall :=
  match c with
  | SetLedsMode leds => _setLedsMode leds
  | SetBacklightColor r g b => _setBacklightColor r g b
  | SetLCDBuffer buffer => _setLCDBuffer buffer
  end.

(** *** The session thread, statement by statement *)

(** The three calls of [_reset]: at the start of [_discover] (line 90),
    in its exception handler (line 110) and at the end of [run]
    (line 220). *)
Inductive ResetSite : Type := AtDiscoverEntry | AtDiscoverExcept | AtRunExit.

(** The statement the session thread executes next. *)
Inductive PC : Type :=
| RunTest                      (* 198: while self._state != SHUTDOWN *)
| DiscoverEntry                (* 89: if self._device *)
| ResetCall (k : ResetSite)    (* 79: self._device.reset() *)
| ResetClear (k : ResetSite)   (* 83-85: dispose, del, self._device = None *)
| ResetSleep (k : ResetSite)   (* 86: time.sleep(1) *)
| DiscoverSetState             (* 92: self._state = DISCOVERING *)
| DiscoverTest                 (* 94: while self._state == DISCOVERING *)
| FindTest                     (* 96: while not self._device *)
| Find                         (* 97-99: self._device = usb.core.find(...) *)
| FindSleep                    (* 100: time.sleep(1) *)
| ClaimReset                   (* 102: self._device.reset() *)
| ClaimDriverActive            (* 103: is_kernel_driver_active(0) *)
| ClaimDetach                  (* 104: detach_kernel_driver(0) *)
| ClaimConfig                  (* 105-106: set_configuration(cfg) *)
| DiscoverFound                (* 112: self._state = FOUND *)
| PollTest                     (* 203: while self._state == FOUND *)
| ReadKeys                     (* 205: count = self._readKeys(reportBuffer) *)
| Synthesize                   (* 208-210 *)
| GetCommand                   (* 189: self._commandQueue.get_nowait() *)
| RunCommand (c : Command)     (* 190-191: fn( *args); task_done() *)
| RunExit                      (* 219: if self._device and self._state == FOUND *)
| Finished                     (* run has returned *)
| Crashed.                     (* an exception left run: a call on None *)

Definition after_reset (k : ResetSite) : PC :=
  match k with
  | AtDiscoverEntry => DiscoverSetState
  | AtDiscoverExcept => DiscoverTest
  | AtRunExit => Finished
  end.

(** What the world answers to the statement being executed: the device
    [usb.core.find] returns, the errno when the USB call of the
    statement raises [USBError], whether a kernel driver is active, the
    bytes an interrupt read delivers, and the selected profile. *)
Record World : Type := mkWorld {
  found : option Device;
  usb_error : option Z;
  driver_active : bool;
  received : list Z;
  selectedProfile : Profile
}.

(** The session thread: the manager, the next statement and the local
    [reportBuffer] of [run]. *)
Record Config : Type := mkConfig {
  mgr : Manager;
  pc : PC;
  reportBuffer : list Z
}.

(** [usb.util.create_buffer(REPORT_SIZE)] *)
Definition create_buffer : list Z := repeat 0 (Z.to_nat REPORT_SIZE).

Definition start : Config := mkConfig init RunTest create_buffer.

Definition goto (p : PC) (m : Manager) (c : Config) : Config :=
  mkConfig m p (reportBuffer c).

(** A call on [self._device]: on [None] it raises [AttributeError],
    which nothing catches; otherwise the call is made and [k] goes on. *)
Definition on_device (c : Config) (call : UsbCall) (k : Manager -> Config) : Config :=
  match _device (mgr c) with
  | None => goto Crashed (mgr c) c
  | Some _ => k (usb_call call (mgr c))
  end.

(** Lines 207-212 after [count] is known. *)
Definition after_read (count : Z) (buffer : list Z) (m : Manager) : Config :=
  if count =? REPORT_SIZE then mkConfig m Synthesize buffer
  else mkConfig m GetCommand buffer.

(** One statement of the session thread. [usb.core.find] is taken to
    return a device or [None]; every other USB call may raise
    [USBError]. *)
Definition thread_step (w : World) (c : Config) : Config :=
  let m := mgr c in
  match pc c with
  | RunTest =>
      if negb (State_eqb (_state m) SHUTDOWN) then goto DiscoverEntry m c
      else goto RunExit m c
  | DiscoverEntry =>
      match _device m with
      | Some _ => goto (ResetCall AtDiscoverEntry) m c
      | None => goto DiscoverSetState m c
      end
  | ResetCall k =>
      (* a USBError of reset() is caught and printed *)
      on_device c DevReset (fun m => goto (ResetClear k) m c)
  | ResetClear k =>
      goto (ResetSleep k) (set_device None (usb_call DisposeResources m)) c
  | ResetSleep k => goto (after_reset k) m c
  | DiscoverSetState => goto DiscoverTest (set_state DISCOVERING m) c
  | DiscoverTest =>
      if State_eqb (_state m) DISCOVERING then goto FindTest m c
      else goto PollTest m c
  | FindTest =>
      match _device m with
      | None => goto Find m c
      | Some _ => goto ClaimReset m c
      end
  | Find =>
      let m := set_device (found w) m in
      match _device m with
      | None => goto FindSleep m c
      | Some _ => goto FindTest m c
      end
  | FindSleep => goto FindTest m c
  | ClaimReset =>
      on_device c DevReset (fun m =>
        match usb_error w with
        | Some _ => goto (ResetCall AtDiscoverExcept) m c
        | None => goto ClaimDriverActive m c
        end)
  | ClaimDriverActive =>
      on_device c IsKernelDriverActive (fun m =>
        match usb_error w with
        | Some _ => goto (ResetCall AtDiscoverExcept) m c
        | None => if driver_active w then goto ClaimDetach m c
                  else goto ClaimConfig m c
        end)
  | ClaimDetach =>
      on_device c DetachKernelDriver (fun m =>
        match usb_error w with
        | Some _ => goto (ResetCall AtDiscoverExcept) m c
        | None => goto ClaimConfig m c
        end)
  | ClaimConfig =>
      on_device c SetConfiguration (fun m =>
        match usb_error w with
        | Some _ => goto (ResetCall AtDiscoverExcept) m c
        | None => goto DiscoverFound m c
        end)
  | DiscoverFound => goto DiscoverTest (set_state FOUND m) c
  | PollTest =>
      if State_eqb (_state m) FOUND then goto ReadKeys m c
      else goto RunTest m c
  | ReadKeys =>
      on_device c (DevRead (Z.lor CTRL_IN G13Endpoints_KEY)) (fun m =>
        match usb_error w with
        | Some errno =>
            if errno =? ETIMEDOUT then after_read 0 (reportBuffer c) m
            else (* line 214: the error ends the inner loop *)
              goto RunTest m c
        | None =>
            let data := firstn (length (reportBuffer c)) (received w) in
            let buffer := data ++ skipn (length data) (reportBuffer c) in
            after_read (Z.of_nat (length data)) buffer m
        end)
  | Synthesize =>
      let profile := selectedProfile w in
      let m := _synthesizeKeys profile (reportBuffer c) m in
      let m := _synthesizeStick profile (reportBuffer c) m in
      goto GetCommand (uinput_call USyn m) c
  | GetCommand =>
      match _commandQueue m with
      | [] => (* queue.Empty *) goto PollTest m c
      | cmd :: rest => goto (RunCommand cmd) (set_commandQueue rest m) c
      end
  | RunCommand cmd =>
      on_device c (call_of cmd) (fun m =>
        match usb_error w with
        | Some _ => (* line 214: the error ends the inner loop *)
            goto RunTest m c
        | None => goto GetCommand m c
        end)
  | RunExit =>
      match _device m with
      | Some _ =>
          if State_eqb (_state m) FOUND then goto (ResetCall AtRunExit) m c
          else goto Finished m c
      | None => goto Finished m c
      end
  | Finished => c
  | Crashed => c
  end.

(** What happens next: the session thread executes a statement, or
    another thread calls one of the public methods. A call of a public
    method runs between two statements of the session thread; its
    exception, if any, goes to the caller. *)
Inductive Input : Type :=
| Step (w : World)
| Call_shutdown
| Call_setLedsMode (leds : Z)
| Call_setBacklightColor (r g b : Z)
| Call_setLCDBuffer (buffer : list Z).

Definition called {A} (f : Method A) (c : Config) : Config :=
  goto (pc c) (snd (f (mgr c))) c.

Definition input_step (c : Config) (i : Input) : Config :=
  match i with
  | Step w => thread_step w c
  | Call_shutdown => called shutdown c
  | Call_setLedsMode leds => called (setLedsMode leds) c
  | Call_setBacklightColor r g b => called (setBacklightColor r g b) c
  | Call_setLCDBuffer buffer => called (setLCDBuffer buffer) c
  end.

Definition exec (inputs : list Input) (c : Config) : Config :=
  fold_left input_step inputs c.

Definition reachable (c : Config) : Prop :=
  exists inputs, exec inputs start = c.



(** Worlds for the runs below: one in which the device [d] is there and
    every call succeeds, one in which the USB call of the statement
    raises [USBError] with [errno]. *)
Definition quiet (profile : Profile) (d : Device) : World :=
  mkWorld (Some d) None false [] profile.
Definition failing (profile : Profile) (d : Device) (errno : Z) : World :=
  mkWorld (Some d) (Some errno) false [] profile.




(** The part of the manager that event synthesis never touches. *)
Definition same_session (m m' : Manager) : Prop :=
  _state m' = _state m /\ _device m' = _device m /\
  _commandQueue m' = _commandQueue m /\ usb_calls m' = usb_calls m.

(** What holds of the handle and the state at each statement. *)
Definition held (m : Manager) : Prop := _device m <> None.

Definition safe (c : Config) : Prop :=
  let m := mgr c in
  match pc c with
  | RunTest | DiscoverEntry | DiscoverTest | PollTest => _state m = FOUND -> held m
  | ResetCall AtDiscoverEntry | ResetClear AtDiscoverEntry => held m
  | ResetSleep AtDiscoverEntry | DiscoverSetState => True
  | ResetCall AtDiscoverExcept => held m /\ _state m <> FOUND
  | ResetClear AtDiscoverExcept | ResetSleep AtDiscoverExcept => _state m <> FOUND
  | FindTest | Find | FindSleep => _state m <> FOUND
  | ClaimReset | ClaimDriverActive | ClaimDetach | ClaimConfig =>
      held m /\ _state m <> FOUND
  | DiscoverFound => held m
  | ReadKeys | Synthesize | GetCommand | RunCommand _ => held m
  | RunExit | Finished => _state m = SHUTDOWN
  | ResetCall AtRunExit | ResetClear AtRunExit | ResetSleep AtRunExit => False
  | Crashed => False
  end.

(** The calls [f] adds to [_uinput] when it runs on [m]. *)
Definition written (f : Manager -> Manager) (m : Manager) : list UinputCall :=
  skipn (length (_uinput m)) (_uinput (f m)).


(** The calls an edge writes: key-down for every code of the binding when
    the key goes down, key-up when it goes up, nothing otherwise. *)
Definition edge (binding : list Z) (wasPressed nowPressed : bool) : list UinputCall :=
  if negb wasPressed && nowPressed then map (fun code => UWrite EV_KEY code 1) binding
  else if wasPressed && negb nowPressed then map (fun code => UWrite EV_KEY code 0) binding
  else [].

(** *** The guard of the public methods *)

Lemma State_eqb_eq (a b : State) : State_eqb a b = true <-> a = b.
Proof. destruct a, b; cbn; split; congruence. Qed.

Lemma _ensureState_other (state : State) (m : Manager) :
  _state m <> state -> _ensureState state m = (Raise StateError, m).
Proof.
  intros Hne. unfold _ensureState.
  destruct (State_eqb (_state m) state) eqn:E; [|reflexivity].
  apply State_eqb_eq in E. contradiction.
Qed.

(** C4: called while the state is not [FOUND], each of [setLedsMode],
    [setBacklightColor] and [setLCDBuffer] raises [StateError] and
    leaves the manager, and with it the command queue, as it was. *)
Theorem setters_guarded (m : Manager) :
  _state m <> FOUND ->
  (forall leds,
      setLedsMode leds m = (Raise StateError, m) /\
      _commandQueue (snd (setLedsMode leds m)) = _commandQueue m) /\
  (forall r g b,
      setBacklightColor r g b m = (Raise StateError, m) /\
      _commandQueue (snd (setBacklightColor r g b m)) = _commandQueue m) /\
  (forall buffer,
      setLCDBuffer buffer m = (Raise StateError, m) /\
      _commandQueue (snd (setLCDBuffer buffer m)) = _commandQueue m).
Proof.
  intros Hne.
  assert (Hg : forall c, mbind (_ensureState FOUND) (fun _ => put c) m
                         = (Raise StateError, m)).
  { intros c. unfold mbind. rewrite _ensureState_other by assumption. reflexivity. }
  repeat split; intros;
    unfold setLedsMode, setBacklightColor, setLCDBuffer; rewrite Hg; reflexivity.
Qed.

(** In [FOUND] the same calls enqueue their command at the back. *)
Lemma setLedsMode_found (m : Manager) (leds : Z) :
  _state m = FOUND ->
  setLedsMode leds m
  = (Ok tt, set_commandQueue (_commandQueue m ++ [SetLedsMode leds]) m).
Proof.
  intros E. unfold setLedsMode, mbind, _ensureState. rewrite E. reflexivity.
Qed.

(** *** Key synthesis *)

Lemma write_codes_uinput (binding : list Z) (value : Z) (m : Manager) :
  _uinput (write_codes binding value m)
  = _uinput m ++ map (fun code => UWrite EV_KEY code value) binding.
Proof.
  unfold write_codes. revert m.
  induction binding as [|code rest IH]; intros m; cbn [fold_left map].
  - rewrite app_nil_r. reflexivity.
  - rewrite IH. cbn [uinput_call _uinput]. rewrite <- app_assoc. reflexivity.
Qed.

Lemma write_codes_lastKeyState (binding : list Z) (value : Z) (m : Manager) :
  _lastKeyState (write_codes binding value m) = _lastKeyState m.
Proof.
  unfold write_codes. revert m.
  induction binding as [|code rest IH]; intros m; cbn [fold_left]; [reflexivity|].
  rewrite IH. reflexivity.
Qed.

Lemma press_uinput (key : Ident) (binding : list Z) (nowPressed : bool) (m : Manager) :
  _uinput (press key binding nowPressed m)
  = _uinput m ++ edge binding (default false (_lastKeyState m !! key)) nowPressed.
Proof.
  unfold press, edge. cbv zeta.
  destruct (negb _ && nowPressed); [|destruct (_ && negb nowPressed)];
    cbn [set_lastKeyState _uinput]; rewrite ?write_codes_uinput, ?app_nil_r; reflexivity.
Qed.

Lemma press_lastKeyState (key : Ident) (binding : list Z) (nowPressed : bool)
  (m : Manager) :
  _lastKeyState (press key binding nowPressed m)
  = <[key := nowPressed]> (_lastKeyState m).
Proof.
  unfold press. cbv zeta.
  destruct (negb _ && nowPressed); [|destruct (_ && negb nowPressed)];
    cbn [set_lastKeyState _lastKeyState]; rewrite ?write_codes_lastKeyState; reflexivity.
Qed.

Lemma written_app (f : Manager -> Manager) (m : Manager) (calls : list UinputCall) :
  _uinput (f m) = _uinput m ++ calls -> written f m = calls.
Proof.
  intros E. unfold written. rewrite E, skipn_app, skipn_all, Nat.sub_diag.
  reflexivity.
Qed.

(** After the loop has run over [keys], the entry of a key of [keys] is
    its bit in the report and every other entry is as before. *)
Lemma synthesizeKeys_lookup (profile : Profile) (report : list Z) (keys : list Ident) :
  forall (m : Manager) (key : Ident),
  _lastKeyState (fold_left (synthesizeKey profile report) keys m) !! key
  = if decide (key ∈ keys) then Some (testReport key report)
    else _lastKeyState m !! key.
Proof.
  induction keys as [|k rest IH]; intros m key; cbn [fold_left].
  - rewrite decide_False by apply not_elem_of_nil. reflexivity.
  - rewrite IH. unfold synthesizeKey. rewrite press_lastKeyState.
    destruct (decide (key ∈ rest)) as [Hin|Hnin].
    + rewrite decide_True by (apply elem_of_cons; right; assumption). reflexivity.
    + destruct (decide (k = key)) as [->|Hne].
      * rewrite decide_True by (apply elem_of_cons; left; reflexivity).
        apply lookup_insert_eq.
      * rewrite decide_False
          by (intros Hc; apply elem_of_cons in Hc as [?|?]; [congruence|contradiction]).
        apply lookup_insert_ne. assumption.
Qed.

Lemma synthesizeKeys_lookup_in (profile : Profile) (report : list Z) (m : Manager)
  (key : Ident) :
  In key G13NormalKeys ->
  _lastKeyState (_synthesizeKeys profile report m) !! key = Some (testReport key report).
Proof.
  intros Hin. unfold _synthesizeKeys. rewrite synthesizeKeys_lookup.
  apply decide_True. apply list_elem_of_In. assumption.
Qed.

(** A loop over keys whose entries already hold the bits of the report
    writes nothing and changes no entry. *)
Lemma synthesizeKeys_steady (profile : Profile) (report : list Z) (keys : list Ident) :
  forall m : Manager,
  (forall key, In key keys -> _lastKeyState m !! key = Some (testReport key report)) ->
  _uinput (fold_left (synthesizeKey profile report) keys m) = _uinput m /\
  _lastKeyState (fold_left (synthesizeKey profile report) keys m) = _lastKeyState m.
Proof.
  induction keys as [|k rest IH]; intros m Hm; cbn [fold_left]; [split; reflexivity|].
  assert (Hk : _lastKeyState m !! k = Some (testReport k report))
    by (apply Hm; left; reflexivity).
  assert (Hu : _uinput (synthesizeKey profile report m k) = _uinput m).
  { unfold synthesizeKey. rewrite press_uinput, Hk. cbn [default]. unfold edge.
    destruct (testReport k report); cbn; apply app_nil_r. }
  assert (Hl : _lastKeyState (synthesizeKey profile report m k) = _lastKeyState m).
  { unfold synthesizeKey. rewrite press_lastKeyState. apply insert_id. assumption. }
  destruct (IH (synthesizeKey profile report m k)) as [IHu IHl].
  { intros key Hin. rewrite Hl. apply Hm. right. assumption. }
  rewrite IHu, IHl, Hu, Hl. split; reflexivity.
Qed.

(** Over a table without repeated keys, one call writes the edges of the
    keys in table order, each judged against the entry the call found. *)
Lemma synthesizeKeys_uinput (profile : Profile) (report : list Z) (keys : list Ident) :
  NoDup keys ->
  forall m : Manager,
  _uinput (fold_left (synthesizeKey profile report) keys m)
  = _uinput m
    ++ flat_map (fun key => edge (keyBinding profile key)
                                 (default false (_lastKeyState m !! key))
                                 (testReport key report)) keys.
Proof.
  induction keys as [|k rest IH]; intros Hnd m; cbn [fold_left flat_map].
  - rewrite app_nil_r. reflexivity.
  - apply NoDup_cons in Hnd as [Hk Hnd]. rewrite IH by assumption.
    unfold synthesizeKey at 1. rewrite press_uinput, <- app_assoc. do 2 f_equal.
    rewrite !flat_map_concat_map. f_equal.
    apply map_ext_in. intros key Hin. unfold synthesizeKey.
    rewrite press_lastKeyState, lookup_insert_ne; [reflexivity|].
    intros ->. apply Hk, list_elem_of_In. assumption.
Qed.

(** C10: after one call of [_synthesizeKeys] the entry of every key of
    the table is the key's bit in the report, whatever the bindings and
    whatever was written; a second call on the same report writes
    nothing. *)
Theorem synthesizeKeys_records_report (profile profile' : Profile) (report : list Z)
  (m : Manager) :
  (forall key, In key G13NormalKeys ->
     _lastKeyState (_synthesizeKeys profile report m) !! key
     = Some (testReport key report)) /\
  written (_synthesizeKeys profile' report) (_synthesizeKeys profile report m) = [].
Proof.
  split.
  - intros key Hin. apply synthesizeKeys_lookup_in. assumption.
  - apply written_app. rewrite app_nil_r. unfold _synthesizeKeys at 1.
    apply synthesizeKeys_steady. intros key Hin.
    apply synthesizeKeys_lookup_in. assumption.
Qed.

(** The loop of one call, cut where it reaches a key of the table. *)
Lemma synthesizeKeys_split (profile : Profile) (report : list Z) (pre post : list Ident)
  (key : Ident) (m : Manager) :
  G13NormalKeys = pre ++ key :: post ->
  _synthesizeKeys profile report m
  = fold_left (synthesizeKey profile report) post
      (synthesizeKey profile report (fold_left (synthesizeKey profile report) pre m) key).
Proof.
  intros Hsplit. unfold _synthesizeKeys. rewrite Hsplit, fold_left_app. reflexivity.
Qed.



(** *** Stick regions *)




(** In Keys mode the entry of a region after [_synthesizeStick] is the
    containment of the normalised stick bytes. *)
Lemma synthesizeStick_region (profile : Profile) (report : list Z) (m : Manager)
  (name : Ident) (region : Region) :
  stickMode profile = KEYS -> stickRegions profile = [(name, region)] ->
  _lastKeyState (_synthesizeStick profile report m) !! name
  = Some (inRegion (normalise (nth 1 report 0)) (normalise (nth 2 report 0)) region).
Proof.
  intros Hmode Hregions. unfold _synthesizeStick. rewrite Hmode, Hregions.
  cbn [fold_left synthesizeRegion]. rewrite press_lastKeyState. apply lookup_insert_eq.
Qed.

(** The stick bytes 51 and 204 are normalised to the boundaries 0.2 and
    0.8 of the region of the specification. *)
Example normalise_boundary :
  normalise 51 = 0.2%float /\ normalise 204 = 0.8%float /\
  inRegion (normalise 51) (normalise 204) (0.2, 0.2, 0.8, 0.8)%float = true /\
  inRegion (normalise 205) (normalise 204) (0.2, 0.2, 0.8, 0.8)%float = false.
Proof. repeat split; reflexivity. Qed.

(** *** Synthesis leaves the session alone *)

Lemma same_session_refl (m : Manager) : same_session m m.
Proof. unfold same_session. repeat split. Qed.

Lemma same_session_trans (m1 m2 m3 : Manager) :
  same_session m1 m2 -> same_session m2 m3 -> same_session m1 m3.
Proof. unfold same_session. intuition congruence. Qed.

Lemma same_session_write_codes (binding : list Z) (value : Z) (m : Manager) :
  same_session m (write_codes binding value m).
Proof.
  unfold write_codes. revert m.
  induction binding as [|code rest IH]; intros m; cbn [fold_left].
  - apply same_session_refl.
  - eapply same_session_trans; [|apply IH]. unfold same_session. repeat split.
Qed.

Lemma same_session_press (key : Ident) (binding : list Z) (nowPressed : bool)
  (m : Manager) :
  same_session m (press key binding nowPressed m).
Proof.
  unfold press. cbv zeta.
  destruct (negb _ && nowPressed); [|destruct (_ && negb nowPressed)];
    unfold same_session;
    cbn [set_lastKeyState _state _device _commandQueue usb_calls];
    first [apply same_session_write_codes | apply same_session_refl].
Qed.

Lemma same_session_fold {A} (f : Manager -> A -> Manager) (l : list A) :
  (forall m a, same_session m (f m a)) ->
  forall m, same_session m (fold_left f l m).
Proof.
  intros Hf. induction l as [|a rest IH]; intros m; cbn [fold_left].
  - apply same_session_refl.
  - eapply same_session_trans; [apply Hf | apply IH].
Qed.

Lemma same_session_synthesizeKeys (profile : Profile) (report : list Z) (m : Manager) :
  same_session m (_synthesizeKeys profile report m).
Proof.
  apply same_session_fold. intros m' key. apply same_session_press.
Qed.

Lemma same_session_synthesizeStick (profile : Profile) (report : list Z) (m : Manager) :
  same_session m (_synthesizeStick profile report m).
Proof.
  unfold _synthesizeStick. cbv zeta. destruct (stickMode profile).
  - unfold same_session. repeat split.
  - apply same_session_refl.
  - apply same_session_fold. intros m' [name region]. apply same_session_press.
Qed.

Lemma same_session_synthesize (profile : Profile) (report : list Z) (m : Manager) :
  same_session m
    (uinput_call USyn
       (_synthesizeStick profile report (_synthesizeKeys profile report m))).
Proof.
  eapply same_session_trans; [apply same_session_synthesizeKeys|].
  eapply same_session_trans; [apply same_session_synthesizeStick|].
  unfold same_session. repeat split.
Qed.

(** *** The handle and the state along a run *)

Lemma safe_synthesize (w : World) (m : Manager) (buffer : list Z) :
  safe (mkConfig m Synthesize buffer) -> safe (thread_step w (mkConfig m Synthesize buffer)).
Proof.
  unfold safe, thread_step, goto, held. cbn [mgr pc reportBuffer].
  destruct (same_session_synthesize (selectedProfile w) buffer m) as (_ & -> & _).
  trivial.
Qed.

Lemma safe_thread_step (w : World) (c : Config) : safe c -> safe (thread_step w c).
Proof.
  destruct c as [m p buffer].
  destruct p as [| |k|k|k| | | | | | | | | | | | | | |cmd| | |];
    try apply safe_synthesize; try destruct k;
    destruct m as [st dev lks q ui us];
    unfold safe, held, thread_step, on_device, after_read, goto; cbn;
    destruct st, dev; cbn; try tauto; try (intuition congruence);
    try (destruct (usb_error w) as [errno|]; cbn; try (intuition congruence));
    try (destruct (driver_active w); cbn; intuition congruence);
    try (destruct (found w); cbn; intuition congruence);
    try (destruct q; cbn; intuition congruence);
    try (destruct (errno =? ETIMEDOUT); cbn; intuition congruence);
    try (destruct (_ =? REPORT_SIZE); cbn; intuition congruence).
Qed.

Lemma safe_input_step (c : Config) (i : Input) : safe c -> safe (input_step c i).
Proof.
  destruct i as [w| |leds|r g b|lcd]; [apply safe_thread_step|..];
    destruct c as [[st dev lks q ui us] p buffer];
    unfold safe, held, input_step, called, goto,
      shutdown, setLedsMode, setBacklightColor, setLCDBuffer, mbind, _ensureState;
    destruct st; cbn;
    destruct p as [| |k|k|k| | | | | | | | | | | | | | |cmd| | |]; try destruct k;
    cbn; intuition congruence.
Qed.

Lemma safe_exec (inputs : list Input) :
  forall c, safe c -> safe (exec inputs c).
Proof.
  unfold exec. induction inputs as [|i rest IH]; intros c Hc; cbn [fold_left].
  - assumption.
  - apply IH, safe_input_step, Hc.
Qed.

Lemma reachable_safe (c : Config) : reachable c -> safe c.
Proof.
  intros [inputs <-]. apply safe_exec. unfold safe, start, init. cbn. discriminate.
Qed.


(** The test at the end of [run] is only reached in [SHUTDOWN], where it
    fails: the thread finishes without calling [_reset]. *)
Lemma run_exit_skips_reset (w : World) (c : Config) :
  reachable c -> pc c = RunExit ->
  _state (mgr c) = SHUTDOWN /\ thread_step w c = goto Finished (mgr c) c.
Proof.
  intros Hr Hp. apply reachable_safe in Hr. unfold safe in Hr.
  unfold thread_step. rewrite Hp in *. cbv zeta in Hr. split; [assumption|].
  rewrite Hr. destruct (_device (mgr c)); reflexivity.
Qed.

(** *** An I/O error in the polling loop *)





(** *** More of the session: the display device, the queue, waiting
    and stopping *)

(** [G13DisplayDevice] of displaydevice.py, which holds the manager:
    [dimensions], [_pushFrame] and [update]. *)
Definition dimensions : Z * Z := (Display.WIDTH_PIXELS, Display.HEIGHT_PIXELS).

Definition _pushFrame (lpbm : list Z) : Method unit := setLCDBuffer lpbm.

Definition update (image : Display.Image) : Method unit :=
  fun m => match Display.ImageToLPBM image with
           | Raise e => mraise e m
           | Ok lpbm => _pushFrame lpbm m
           end.










(** The statements of [_discover] and of the loop around it before the
    device has been found. *)
Definition waiting (p : PC) : bool :=
  match p with
  | RunTest | DiscoverEntry | DiscoverSetState | DiscoverTest
  | FindTest | Find | FindSleep => true
  | _ => false
  end.

(** The loop of lines 96-100. *)
Definition finding_loop (p : PC) : bool :=
  match p with
  | FindTest | Find | FindSleep => true
  | _ => false
  end.

(** The statements of lines 96-112 once the device has been found, with
    the USB call each of them makes. *)
Definition claiming (p : PC) : bool :=
  match p with
  | ClaimReset | ClaimDriverActive | ClaimDetach | ClaimConfig => true
  | _ => false
  end.

Definition claim_call (p : PC) : list UsbCall :=
  match p with
  | ClaimReset => [DevReset]
  | ClaimDriverActive => [IsKernelDriverActive]
  | ClaimDetach => [DetachKernelDriver]
  | ClaimConfig => [SetConfiguration]
  | _ => []
  end.

(** An input by which no device appears: a statement to which
    [usb.core.find] would answer [None], or a call of [shutdown]. *)
Definition no_device (i : Input) : bool :=
  match i with
  | Step w => match found w with None => true | Some _ => false end
  | Call_shutdown => true
  | _ => false
  end.

Definition is_shutdown (i : Input) : bool :=
  match i with
  | Call_shutdown => true
  | _ => false
  end.


(** The statements from a statement of the claim to the first read of
    the polling loop, when every call succeeds and no kernel driver is
    active. *)
Definition statements_to_read (p : PC) : nat :=
  match p with
  | FindTest => 7
  | ClaimReset => 6
  | ClaimDriverActive | ClaimDetach => 5
  | ClaimConfig => 4
  | DiscoverFound => 3
  | _ => 0
  end.



(** *** More of manager.py: special keys, and what one call writes *)

(** [G13SpecialKeys] is the second enumeration of [g13gui.g13.common];
    its members are keys of [_lastKeyState] like the others. *)
Variable G13SpecialKeys : list Ident.

(** The body of the loop of [signalSpecialKeys], lines 271-278: the
    release is detected and nothing is done about it. *)
Definition signalSpecialKey (report : list Z) (m : Manager) (key : Ident) : Manager :=
  let wasPressed := default false (_lastKeyState m !! key) in
  let nowPressed := testReport key report in
  let m := if wasPressed && negb nowPressed then (* pass *) m else m in
  set_lastKeyState key nowPressed m.

Definition signalSpecialKeys (report : list Z) (m : Manager) : Manager :=
  fold_left (signalSpecialKey report) G13SpecialKeys m.

(** The edge of one key or region in a call that found the entries
    [lks]. *)
Definition edge_of (lks : gmap Ident bool) (key : Ident) (binding : list Z)
  (nowPressed : bool) : list UinputCall :=
  edge binding (default false (lks !! key)) nowPressed.


Lemma fold_left_pointwise {A B} (f g : A -> B -> A) (l : list B) :
  (forall a b, f a b = g a b) -> forall a, fold_left f l a = fold_left g l a.
Proof.
  intros Hfg. induction l as [|b l IH]; intros a; cbn [fold_left]; [reflexivity|].
  rewrite Hfg. apply IH.
Qed.

(** A loop of edge tests over items with distinct keys writes the edges
    in the order of the items, each against the entry the loop found. *)
Lemma press_fold_uinput {A} (kf : A -> Ident) (bf : A -> list Z) (nf : A -> bool)
  (items : list A) :
  NoDup (map kf items) ->
  forall m : Manager,
  _uinput (fold_left (fun m a => press (kf a) (bf a) (nf a) m) items m)
  = _uinput m
    ++ flat_map (fun a => edge_of (_lastKeyState m) (kf a) (bf a) (nf a)) items.
Proof.
  induction items as [|a rest IH]; intros Hnd m; cbn [fold_left flat_map map] in *.
  - rewrite app_nil_r. reflexivity.
  - apply NoDup_cons in Hnd as [Ha Hnd]. rewrite IH by assumption.
    rewrite press_uinput, <- app_assoc. unfold edge_of at 3. do 2 f_equal.
    rewrite !flat_map_concat_map. f_equal. apply map_ext_in. intros b Hb.
    unfold edge_of. rewrite press_lastKeyState, lookup_insert_ne; [reflexivity|].
    intros E. apply Ha. rewrite E. apply list_elem_of_In, in_map. assumption.
Qed.

Lemma press_fold_lookup_in {A} (kf : A -> Ident) (bf : A -> list Z) (nf : A -> bool)
  (items : list A) :
  NoDup (map kf items) ->
  forall (m : Manager) (a : A), In a items ->
  _lastKeyState (fold_left (fun m a => press (kf a) (bf a) (nf a) m) items m) !! kf a
  = Some (nf a).
Proof.
  induction items as [|b rest IH]; intros Hnd m a Hin; [destruct Hin|].
  cbn [fold_left map] in *. apply NoDup_cons in Hnd as [Hb Hnd].
  destruct Hin as [->|Hin]; [|apply IH; assumption].
  clear IH. revert m.
  assert (Hother : forall (l : list A) (m : Manager),
             ~ In (kf a) (map kf l) ->
             _lastKeyState (fold_left (fun m a => press (kf a) (bf a) (nf a) m) l m)
               !! kf a = _lastKeyState m !! kf a).
  { induction l as [|c l IHl]; intros m Hn; cbn [fold_left]; [reflexivity|].
    cbn [map] in Hn. rewrite IHl by (intros Hc; apply Hn; right; assumption).
    rewrite press_lastKeyState. apply lookup_insert_ne.
    intros E. apply Hn. left. assumption. }
  intros m. rewrite Hother by (rewrite <- list_elem_of_In; assumption).
  rewrite press_lastKeyState. apply lookup_insert_eq.
Qed.

Lemma press_fold_lookup_other {A} (kf : A -> Ident) (bf : A -> list Z) (nf : A -> bool)
  (items : list A) (key : Ident) :
  ~ In key (map kf items) ->
  forall m : Manager,
  _lastKeyState (fold_left (fun m a => press (kf a) (bf a) (nf a) m) items m) !! key
  = _lastKeyState m !! key.
Proof.
  induction items as [|c l IHl]; intros Hn m; cbn [fold_left]; [reflexivity|].
  cbn [map] in Hn. rewrite IHl by (intros Hc; apply Hn; right; assumption).
  rewrite press_lastKeyState. apply lookup_insert_ne.
  intros E. apply Hn. left. assumption.
Qed.

Lemma synthesizeKeys_as_press (profile : Profile) (report : list Z) (keys : list Ident)
  (m : Manager) :
  fold_left (synthesizeKey profile report) keys m
  = fold_left (fun m key => press key (keyBinding profile key) (testReport key report) m)
              keys m.
Proof. apply fold_left_pointwise. reflexivity. Qed.

Lemma synthesizeRegions_as_press (profile : Profile) (joy_x joy_y : float)
  (regions : list (Ident * Region)) (m : Manager) :
  fold_left (synthesizeRegion profile joy_x joy_y) regions m
  = fold_left (fun m item => press (fst item) (keyBinding profile (fst item))
                                   (inRegion joy_x joy_y (snd item)) m)
              regions m.
Proof. apply fold_left_pointwise. intros m' [name region]. reflexivity. Qed.

Lemma synthesizeStick_keys_as_press (profile : Profile) (report : list Z) (m : Manager) :
  stickMode profile = KEYS ->
  _synthesizeStick profile report m
  = fold_left (fun m item => press (fst item) (keyBinding profile (fst item))
                                   (inRegion (normalise (nth 1 report 0))
                                             (normalise (nth 2 report 0)) (snd item)) m)
              (stickRegions profile) m.
Proof.
  intros Hmode. unfold _synthesizeStick. rewrite Hmode. cbv zeta.
  apply synthesizeRegions_as_press.
Qed.

Lemma signalSpecialKeys_as_press (report : list Z) (keys : list Ident) (m : Manager) :
  fold_left (signalSpecialKey report) keys m
  = fold_left (fun m key => press key [] (testReport key report) m) keys m.
Proof.
  apply fold_left_pointwise. intros m' key. unfold signalSpecialKey, press. cbv zeta.
  destruct (negb _ && _), (_ && negb _); reflexivity.
Qed.

Lemma edge_nil (wasPressed nowPressed : bool) : edge [] wasPressed nowPressed = [].
Proof. destruct wasPressed, nowPressed; reflexivity. Qed.

Lemma map_id_list {A} (l : list A) : map (fun a => a) l = l.
Proof. induction l as [|a l IH]; cbn; [|rewrite IH]; reflexivity. Qed.

Lemma synthesizeKeys_written (profile : Profile) (report : list Z) (m : Manager) :
  NoDup G13NormalKeys ->
  written (_synthesizeKeys profile report) m
  = flat_map (fun key => edge_of (_lastKeyState m) key (keyBinding profile key)
                                 (testReport key report)) G13NormalKeys.
Proof.
  intros Hnd. apply written_app. unfold _synthesizeKeys.
  rewrite synthesizeKeys_as_press.
  apply (press_fold_uinput (fun key => key)). rewrite map_id_list. assumption.
Qed.

(** X4: one call of [_synthesizeKeys] on a table without repeated keys
    writes exactly the edges of the keys, in table order, each judged
    against the entry the call found; entries of identifiers outside
    the table are left as they were. *)
Theorem synthesizeKeys_table_order (profile : Profile) (report : list Z) (m : Manager) :
  NoDup G13NormalKeys ->
  written (_synthesizeKeys profile report) m
  = flat_map (fun key => edge_of (_lastKeyState m) key (keyBinding profile key)
                                 (testReport key report)) G13NormalKeys /\
  (forall key, ~ In key G13NormalKeys ->
     _lastKeyState (_synthesizeKeys profile report m) !! key = _lastKeyState m !! key).
Proof.
  intros Hnd. split; [apply synthesizeKeys_written; assumption|].
  intros key Hn. unfold _synthesizeKeys. rewrite synthesizeKeys_as_press.
  apply (press_fold_lookup_other (fun key => key)).
  rewrite map_id_list. assumption.
Qed.


(** X6: in Keys mode one call of [_synthesizeStick] is edge-triggered
    per region. Over regions with distinct names it writes the edge of
    every region in the order of the regions, records for each region
    whether the normalised stick bytes are inside it, and leaves the
    entries of all other identifiers alone. *)
Theorem synthesizeStick_keys_mode (profile : Profile) (report : list Z) (m : Manager) :
  stickMode profile = KEYS ->
  NoDup (map fst (stickRegions profile)) ->
  let joy_x := normalise (nth 1 report 0) in
  let joy_y := normalise (nth 2 report 0) in
  let m' := _synthesizeStick profile report m in
  written (_synthesizeStick profile report) m
  = flat_map (fun item => edge_of (_lastKeyState m) (fst item)
                                  (keyBinding profile (fst item))
                                  (inRegion joy_x joy_y (snd item)))
             (stickRegions profile) /\
  (forall name region, In (name, region) (stickRegions profile) ->
     _lastKeyState m' !! name = Some (inRegion joy_x joy_y region)) /\
  (forall key, ~ In key (map fst (stickRegions profile)) ->
     _lastKeyState m' !! key = _lastKeyState m !! key).
Proof.
  intros Hmode Hnd. cbv zeta. split; [|split].
  - apply written_app. rewrite synthesizeStick_keys_as_press by assumption.
    apply (press_fold_uinput fst). assumption.
  - intros name region Hin. rewrite synthesizeStick_keys_as_press by assumption.
    apply (press_fold_lookup_in fst (fun item => keyBinding profile (fst item))
             (fun item => inRegion _ _ (snd item)) _ Hnd m (name, region) Hin).
  - intros key Hn. rewrite synthesizeStick_keys_as_press by assumption.
    apply (press_fold_lookup_other fst). assumption.
Qed.

(** X7: [signalSpecialKeys] writes nothing and touches nothing of the
    session; it records the bit of every special key and leaves the
    other entries alone, so that, the two enumerations being disjoint,
    a call of [_synthesizeKeys] writes the same with or without it. *)
Theorem signalSpecialKeys_silent (profile : Profile) (report report' : list Z)
  (m : Manager) :
  NoDup G13NormalKeys ->
  (forall key, In key G13SpecialKeys -> ~ In key G13NormalKeys) ->
  let m' := signalSpecialKeys report m in
  _uinput m' = _uinput m /\ same_session m m' /\
  (forall key, In key G13SpecialKeys ->
     _lastKeyState m' !! key = Some (testReport key report)) /\
  (forall key, ~ In key G13SpecialKeys ->
     _lastKeyState m' !! key = _lastKeyState m !! key) /\
  written (_synthesizeKeys profile report') m'
  = written (_synthesizeKeys profile report') m.
Proof.
  intros Hnd Hdisj. cbv zeta. unfold signalSpecialKeys.
  assert (Hother : forall key, ~ In key G13SpecialKeys ->
            _lastKeyState (fold_left (signalSpecialKey report) G13SpecialKeys m) !! key
            = _lastKeyState m !! key).
  { intros key Hn. rewrite signalSpecialKeys_as_press.
    apply (press_fold_lookup_other (fun key => key)). rewrite map_id_list. assumption. }
  split; [|split; [|split; [|split]]].
  - rewrite signalSpecialKeys_as_press. generalize m. clear.
    induction G13SpecialKeys as [|key rest IH]; intros m; cbn [fold_left];
      [reflexivity|].
    rewrite IH, press_uinput, edge_nil. apply app_nil_r.
  - rewrite signalSpecialKeys_as_press. apply same_session_fold.
    intros m0 key. apply same_session_press.
  - intros key Hin. generalize m. clear - Hin.
    induction G13SpecialKeys as [|k rest IH]; intros m; [destruct Hin|].
    cbn [fold_left]. rewrite signalSpecialKeys_as_press.
    destruct (decide (key ∈ rest)) as [Hr|Hr].
    + rewrite <- signalSpecialKeys_as_press. apply IH.
      apply list_elem_of_In. assumption.
    + destruct Hin as [->|Hin]; [|apply list_elem_of_In in Hin; contradiction].
      rewrite (press_fold_lookup_other (fun key => key))
        by (rewrite map_id_list, <- list_elem_of_In; assumption).
      unfold signalSpecialKey. cbv zeta.
      destruct (_ && negb _); cbn [set_lastKeyState _lastKeyState];
        apply lookup_insert_eq.
  - exact Hother.
  - rewrite !synthesizeKeys_written by assumption.
    rewrite !flat_map_concat_map. f_equal. apply map_ext_in. intros key Hin.
    unfold edge_of. rewrite Hother; [reflexivity|].
    intros Hs. exact (Hdisj key Hs Hin).
Qed.

(** X8: event synthesis never touches the session: [_synthesizeKeys],
    [_synthesizeStick] and [signalSpecialKeys] make no USB call and
    leave the state, the handle and the command queue as they are. *)
Theorem synthesis_leaves_session (profile : Profile) (report : list Z) (m : Manager) :
  same_session m (_synthesizeKeys profile report m) /\
  same_session m (_synthesizeStick profile report m) /\
  same_session m (signalSpecialKeys report m).
Proof.
  split; [apply same_session_synthesizeKeys|].
  split; [apply same_session_synthesizeStick|].
  unfold signalSpecialKeys. rewrite signalSpecialKeys_as_press.
  apply same_session_fold. intros m0 key. apply same_session_press.
Qed.

(** *** The display device *)

(** X9: [update] encodes before it asks the manager. An image narrower
    than 160 or lower than 43 rows raises [IndexError] whatever the
    state; an image the encoder accepts raises [StateError] outside
    [FOUND]; in both cases nothing is queued. In [FOUND] one command is
    appended to the queue, with the encoder's bytes, as many as
    [LCD_BUFFER_SIZE]. *)
Theorem update_behaviour (image : Display.Image) (m : Manager) :
  (Display.xsize image < 160 \/ Display.ysize image < 43 ->
   update image m = (Raise IndexError, m)) /\
  (160 <= Display.xsize image -> 43 <= Display.ysize image ->
   _state m <> FOUND -> update image m = (Raise StateError, m)) /\
  (160 <= Display.xsize image -> 43 <= Display.ysize image ->
   _state m = FOUND ->
   exists lpbm,
     Display.ImageToLPBM image = Ok lpbm /\
     Z.of_nat (length lpbm) = LCD_BUFFER_SIZE /\
     update image m
     = (Ok tt, set_commandQueue (_commandQueue m ++ [SetLCDBuffer lpbm]) m)).
Proof.
  unfold update, _pushFrame. split; [|split].
  - intros Hsmall. destruct (Display.ImageToLPBM image) as [lpbm|e] eqn:E.
    + apply Display.ImageToLPBM_ok_inv in E. lia.
    + apply Display.ImageToLPBM_exn in E. subst e. reflexivity.
  - intros Hw Hh Hst. rewrite (Display.ImageToLPBM_in image Hw Hh).
    unfold setLCDBuffer, mbind. rewrite _ensureState_other by assumption. reflexivity.
  - intros Hw Hh Hst. exists (map (Display.byte_at image) (range 960)).
    rewrite (Display.ImageToLPBM_in image Hw Hh).
    split; [reflexivity|]. split; [rewrite Display.length_map_range; reflexivity|].
    unfold setLCDBuffer, mbind, _ensureState. rewrite Hst. reflexivity.
Qed.

(** *** The command queue *)









(** *** Waiting for the device, and stopping *)

Lemma exec_cons (i : Input) (rest : list Input) (c : Config) :
  exec (i :: rest) c = exec rest (input_step c i).
Proof. reflexivity. Qed.

(** X12: while no device appears the thread waits in [_discover] for
    ever: whatever the number of statements, the manager is as
    [__init__] left it (state [DISCOVERING], no handle, no call on the
    device or the keyboard) and the thread is in the discovery code,
    neither polling nor finished nor crashed. *)
Theorem discover_waits_for_device (ws : list World) :
  Forall (fun w => found w = None) ws ->
  let c := exec (map Step ws) start in
  mgr c = init /\ waiting (pc c) = true.
Proof.
  cbv zeta. intros Hws.
  assert (Hgen : forall c, mgr c = init -> waiting (pc c) = true ->
                           mgr (exec (map Step ws) c) = init /\
                           waiting (pc (exec (map Step ws) c)) = true).
  { induction Hws as [|w rest Hw _ IH]; intros c Hm Hp; [split; assumption|].
    cbn [map]. rewrite exec_cons. apply IH;
      destruct c as [m p buffer]; cbn [mgr pc] in *; subst m;
      destruct p as [| |k|k|k| | | | | | | | | | | | | | |cmd| | |];
      try discriminate Hp; cbn; rewrite ?Hw; reflexivity. }
  apply Hgen; reflexivity.
Qed.

(** One input of the find loop while no device appears. *)
Lemma finding_step (c : Config) (i : Input) :
  no_device i = true -> finding_loop (pc c) = true -> _device (mgr c) = None ->
  finding_loop (pc (input_step c i)) = true /\
  _device (mgr (input_step c i)) = None /\
  (is_shutdown i = true \/ _state (mgr c) = SHUTDOWN ->
   _state (mgr (input_step c i)) = SHUTDOWN).
Proof.
  destruct c as [[st dev lks q ui us] p buffer]. cbn [mgr pc _device _state].
  intros Hi Hp ->.
  destruct i as [w| |leds|r g b|lcd]; try discriminate Hi;
    destruct p as [| |k|k|k| | | | | | | | | | | | | | |cmd| | |];
    try discriminate Hp; cbn in *;
    try (destruct (found w); [discriminate Hi|]); cbn;
    repeat split; trivial; intros [E|E]; first [discriminate E | exact E].
Qed.

(** X13: [shutdown()] does not end the wait for a device. From the loop
    of lines 96-100 with no handle, whatever is called and however many
    statements run, the thread stays in that loop as long as
    [usb.core.find] returns [None]; it never reaches the end of [run]. *)
Theorem shutdown_ignored_while_finding (inputs : list Input) (c : Config) :
  forallb no_device inputs = true ->
  finding_loop (pc c) = true -> _device (mgr c) = None ->
  let c' := exec inputs c in
  finding_loop (pc c') = true /\ _device (mgr c') = None /\
  (existsb is_shutdown inputs = true -> _state (mgr c') = SHUTDOWN).
Proof.
  cbv zeta. intros Hin Hp Hd.
  assert (Hgen : forall c,
             finding_loop (pc c) = true -> _device (mgr c) = None ->
             finding_loop (pc (exec inputs c)) = true /\
             _device (mgr (exec inputs c)) = None /\
             (existsb is_shutdown inputs = true \/ _state (mgr c) = SHUTDOWN ->
              _state (mgr (exec inputs c)) = SHUTDOWN)).
  { clear c Hp Hd. induction inputs as [|i rest IH]; intros c Hp Hd.
    - repeat split; try assumption. intros [E|E]; [discriminate E | exact E].
    - cbn [forallb] in Hin. apply andb_true_iff in Hin as [Hi Hrest].
      rewrite exec_cons.
      destruct (finding_step c i Hi Hp Hd) as (Hp1 & Hd1 & Hs1).
      destruct (IH Hrest (input_step c i) Hp1 Hd1) as (Hp' & Hd' & Hs').
      repeat split; try assumption.
      cbn [existsb]. intros [E|E].
      + apply orb_true_iff in E as [Hnow|Hlater].
        * apply Hs'. right. apply Hs1. left. assumption.
        * apply Hs'. left. assumption.
      + apply Hs'. right. apply Hs1. right. assumption. }
  destruct (Hgen c Hp Hd) as (Hp' & Hd' & Hs').
  repeat split; try assumption. intros E. apply Hs'. left. assumption.
Qed.

(** X14: a [shutdown()] that arrives while the device is being claimed
    is lost. From any statement between the find and line 112, with the
    handle held, the call is followed by line 112 assigning [FOUND]: the
    thread goes on to poll, in [FOUND], as if nothing had been asked. *)
Theorem shutdown_lost_while_claiming (profile : Profile) (d d' : Device) (c : Config) :
  statements_to_read (pc c) <> 0%nat -> _device (mgr c) = Some d ->
  let c' := exec (Call_shutdown
                  :: repeat (Step (quiet profile d')) (statements_to_read (pc c))) c in
  pc c' = ReadKeys /\ _state (mgr c') = FOUND /\ _device (mgr c') = Some d.
Proof.
  destruct c as [[st dev lks q ui us] p buffer]. cbn [mgr pc _device].
  intros Hp ->. cbv zeta.
  destruct p as [| |k|k|k| | | | | | | | | | | | | | |cmd| | |];
    try (exfalso; apply Hp; reflexivity); repeat split; reflexivity.
Qed.

(** X15: any USB error while the device is being claimed makes
    [_discover] start over. Whatever the statement of lines 102-106 that
    fails, and whether the reset that follows succeeds or not, four
    statements later the handle has been reset, disposed of and
    dropped, the state is unchanged and the thread is back at the find
    loop. *)
Theorem claim_error_retries (d : Device) (errno : Z) (w w1 w2 w3 w4 : World)
  (c : Config) :
  claiming (pc c) = true -> _device (mgr c) = Some d ->
  _state (mgr c) = DISCOVERING -> usb_error w = Some errno ->
  let c' := exec [Step w; Step w1; Step w2; Step w3; Step w4] c in
  pc c' = FindTest /\ _device (mgr c') = None /\ _state (mgr c') = DISCOVERING /\
  _commandQueue (mgr c') = _commandQueue (mgr c) /\
  usb_calls (mgr c')
  = usb_calls (mgr c) ++ claim_call (pc c) ++ [DevReset; DisposeResources].
Proof.
  destruct c as [[st dev lks q ui us] p buffer]. cbn [mgr pc _device _state].
  intros Hp -> -> Hw. cbv zeta.
  destruct p as [| |k|k|k| | | | | | | | | | | | | | |cmd| | |];
    try discriminate Hp; cbn; unfold thread_step at 5; cbn; rewrite Hw; cbn;
    rewrite <- !app_assoc; repeat split; reflexivity.
Qed.





(** *** The stick position *)

Lemma normalise_table :
  forallb (fun a =>
             within (normalise a) 0 1
             && forallb (fun b => implb (a <? b)
                                        (PrimFloat.ltb (normalise a) (normalise b)))
                        (range 256))
          (range 256) = true.
Proof. vm_compute. reflexivity. Qed.

(** X18: the stick bytes are normalised into [0, 1], strictly
    increasing: every report lies in the region (0, 0, 1, 1), and a
    larger byte is normalised to a larger position. *)
Theorem normalise_unit_range (joy_x joy_y : Z) :
  0 <= joy_x <= 255 -> 0 <= joy_y <= 255 ->
  inRegion (normalise joy_x) (normalise joy_y) (0, 0, 1, 1)%float = true /\
  (joy_x < joy_y -> PrimFloat.ltb (normalise joy_x) (normalise joy_y) = true).
Proof.
  intros Hx Hy. pose proof normalise_table as Htable.
  rewrite forallb_forall in Htable.
  pose proof (Htable joy_x (proj2 (Display.In_range 256 joy_x) ltac:(lia))) as Hjx.
  pose proof (Htable joy_y (proj2 (Display.In_range 256 joy_y) ltac:(lia))) as Hjy.
  apply andb_true_iff in Hjx as [Hinx Hmono]. apply andb_true_iff in Hjy as [Hiny _].
  split.
  - unfold inRegion. rewrite Hinx, Hiny. reflexivity.
  - intros Hlt. rewrite forallb_forall in Hmono.
    specialize (Hmono joy_y (proj2 (Display.In_range 256 joy_y) ltac:(lia))).
    rewrite (proj2 (Z.ltb_lt joy_x joy_y) Hlt) in Hmono. exact Hmono.
Qed.

End WithKeys.

(** *** A sample key table, and runs on it *)

(** Modelled from the spec: [G13NormalKeys] and [testReport] belong to
    [g13gui.g13.common], which is not among the sources. The
    specification gives every key of the fixed table one bit of the
    report to test; this sample table has three keys, on bits 0, 1 and 2
    of byte 0. *)
Definition sample_keys : list string := ["G1"; "G2"; "G3"]%string.

Definition sample_bit (key : string) : option (nat * Z) :=
  if decide (key = "G1"%string) then Some (0%nat, 0)
  else if decide (key = "G2"%string) then Some (0%nat, 1)
  else if decide (key = "G3"%string) then Some (0%nat, 2)
  else None.

Definition sample_testReport (key : string) (report : list Z) : bool :=
  match sample_bit key with
  | Some (byte, bit) => Z.testbit (nth byte report 0) bit
  | None => false
  end.

(** A profile that binds G2 to two key codes and nothing else. *)
Definition sample_profile : Profile (Ident := string) :=
  mkProfile ABSOLUTE []
            (fun key => if decide (key = "G2"%string) then [30; 48] else []).

Definition sample_device : Device := Dev 1.

Definition ok : Input (Ident := string) := Step (quiet sample_profile sample_device).
Definition timed_out : Input (Ident := string) :=
  Step (failing sample_profile sample_device ETIMEDOUT).
(** errno 5 is [EIO]. *)
Definition io_error : Input (Ident := string) :=
  Step (failing sample_profile sample_device 5).

Definition run (inputs : list (Input (Ident := string))) (c : Config (Ident := string))
  : Config (Ident := string) :=
  exec sample_keys sample_testReport inputs c.

(** From the start of the thread to the first test of the polling loop:
    the device is found and claimed. *)
Definition discovered : Config (Ident := string) := run (repeat ok 12) start.

(** A report in which only G2 is down, and one with no key down. *)
Definition report_G2 : list Z := [2; 128; 128; 0; 0; 0; 0; 0].
Definition report_none : list Z := [0; 128; 128; 0; 0; 0; 0; 0].

Lemma discovered_found :
  pc discovered = PollTest /\ _state (mgr discovered) = FOUND /\
  _device (mgr discovered) = Some sample_device /\
  usb_calls (mgr discovered) = [DevReset; IsKernelDriverActive; SetConfiguration].
Proof. repeat split; reflexivity. Qed.

(** The thread after [usb.core.find] has returned the device and before
    it is claimed. *)
Definition finding : Config (Ident := string) := run (repeat ok 6) start.



(** [shutdown()] is called while the session is in [FOUND], before the
    test of the polling loop, and the thread runs on to its end. *)
Definition stopped : Config (Ident := string) :=
  run (Call_shutdown :: repeat ok 3) discovered.

(** The same with [shutdown()] called in the middle of an iteration,
    while the read is pending. *)
Definition stopped_in_read : Config (Ident := string) :=
  run ([ok; Call_shutdown; timed_out] ++ repeat ok 4) discovered.




Lemma setters_guarded_witness :
  _state (init (Ident := string)) <> FOUND /\
  setLedsMode 1 (init (Ident := string)) = (Raise StateError, init) /\
  setBacklightColor 255 0 0 (init (Ident := string)) = (Raise StateError, init) /\
  _commandQueue (snd (setLCDBuffer [0; 1] (init (Ident := string)))) = [].
Proof.
  assert (Hne : _state (init (Ident := string)) <> FOUND) by discriminate.
  destruct (setters_guarded init Hne) as (Hleds & Hcolor & Hlcd).
  split; [exact Hne|].
  split; [exact (proj1 (Hleds 1))|].
  split; [exact (proj1 (Hcolor 255 0 0))|].
  exact (proj2 (Hlcd [0; 1])).
Defined.

Lemma sample_keys_NoDup : NoDup sample_keys.
Proof. apply (bool_decide_unpack _). vm_compute. exact I. Qed.


(** The five reports, run through the whole loop: the only calls on the
    virtual keyboard are the two key-downs and the two key-ups of G2. *)
Example synthesizeKeys_five_reports :
  let tick := _synthesizeKeys sample_keys sample_testReport sample_profile in
  _uinput (tick report_none (tick report_G2 (tick report_G2
            (tick report_none (tick report_none init)))))
  = [UWrite EV_KEY 30 1; UWrite EV_KEY 48 1; UWrite EV_KEY 30 0; UWrite EV_KEY 48 0].
Proof. vm_compute. reflexivity. Qed.

Lemma synthesizeKeys_records_report_witness :
  let m := _synthesizeKeys sample_keys sample_testReport sample_profile report_G2 init in
  _lastKeyState m !! "G2"%string = Some true /\
  _lastKeyState m !! "G1"%string = Some false /\
  written (_synthesizeKeys sample_keys sample_testReport sample_profile report_G2) m = [].
Proof.
  destruct (synthesizeKeys_records_report sample_keys sample_testReport
              sample_profile sample_profile report_G2 init) as [Hkeys Hquiet].
  split; [exact (Hkeys "G2"%string ltac:(right; left; reflexivity))|].
  split; [exact (Hkeys "G1"%string ltac:(left; reflexivity))|].
  exact Hquiet.
Defined.



(** C2 on the code: [shutdown()] called in [FOUND] ends the loop and
    leaves the state at [SHUTDOWN], but the thread finishes with the
    handle still held and without another call on the device: the reset
    at the end of [run] is skipped. *)
Theorem shutdown_while_found_skips_reset :
  (_state (mgr discovered) = FOUND /\ _device (mgr discovered) = Some sample_device) /\
  (pc stopped = Finished /\ _state (mgr stopped) = SHUTDOWN /\
   _device (mgr stopped) = Some sample_device /\
   usb_calls (mgr stopped) = usb_calls (mgr discovered)) /\
  (pc stopped_in_read = Finished /\ _state (mgr stopped_in_read) = SHUTDOWN /\
   _device (mgr stopped_in_read) = Some sample_device /\
   usb_calls (mgr stopped_in_read)
   = usb_calls (mgr discovered) ++ [DevRead (Z.lor CTRL_IN G13Endpoints_KEY)]).
Proof. repeat split; reflexivity. Qed.



(** *** Runs and tables for the further properties *)

(** Modelled from the spec: [G13SpecialKeys] belongs to
    [g13gui.g13.common] like the normal keys; the specification only
    says that a secondary key set has its own report test. This sample
    puts two special keys on bits 6 and 7 of byte 0. *)
Definition sample_special_keys : list string := ["M1"; "M2"]%string.

Definition sample_testReport_all (key : string) (report : list Z) : bool :=
  if decide (key = "M1"%string) then Z.testbit (nth 0 report 0) 6
  else if decide (key = "M2"%string) then Z.testbit (nth 0 report 0) 7
  else sample_testReport key report.

(** A profile that binds every key of the sample table. *)
Definition full_profile : Profile (Ident := string) :=
  mkProfile ABSOLUTE []
            (fun key => if decide (key = "G1"%string) then [2]
                        else if decide (key = "G2"%string) then [30; 48]
                        else if decide (key = "G3"%string) then [4]
                        else []).


(** A profile in Keys mode with two overlapping regions, the left edge
    and the upper edge of the stick. *)
Definition stick_profile : Profile (Ident := string) :=
  mkProfile KEYS
            [("LEFT"%string, (0, 0, 0.2, 1)%float); ("UP"%string, (0, 0, 1, 0.2)%float)]
            (fun key => if decide (key = "LEFT"%string) then [105]
                        else if decide (key = "UP"%string) then [103]
                        else []).

(** Reports with all three keys down, with the stick in the upper left
    corner, and with a special key down. *)
Definition report_all : list Z := [7; 128; 128; 0; 0; 0; 0; 0].
Definition report_corner : list Z := [0; 10; 10; 0; 0; 0; 0; 0].
Definition report_M1 : list Z := [66; 128; 128; 0; 0; 0; 0; 0].

(** The world in which no device is attached, and the statement run in
    it. *)
Definition nothing_there : World (Ident := string) :=
  mkWorld None None false [] sample_profile.
Definition absent : Input (Ident := string) := Step nothing_there.

(** The thread in the find loop, no device having appeared. *)
Definition searching : Config (Ident := string) := run (repeat absent 4) start.

(** The thread about to reset the device it has found. *)
Definition claiming_reset : Config (Ident := string) := run (repeat ok 7) start.

Lemma stick_regions_NoDup : NoDup (map fst (stickRegions stick_profile)).
Proof. apply (bool_decide_unpack _). vm_compute. exact I. Qed.

Lemma synthesizeKeys_table_order_witness :
  written (_synthesizeKeys sample_keys sample_testReport full_profile report_all) init
  = [UWrite EV_KEY 2 1; UWrite EV_KEY 30 1; UWrite EV_KEY 48 1; UWrite EV_KEY 4 1].
Proof.
  exact (proj1 (synthesizeKeys_table_order sample_keys sample_testReport full_profile
                  report_all init sample_keys_NoDup)).
Defined.


Lemma synthesizeStick_keys_mode_witness :
  written (_synthesizeStick stick_profile report_corner) init
  = [UWrite EV_KEY 105 1; UWrite EV_KEY 103 1] /\
  _lastKeyState (_synthesizeStick stick_profile report_corner init) !! "UP"%string
  = Some true.
Proof.
  destruct (synthesizeStick_keys_mode stick_profile report_corner init eq_refl
              stick_regions_NoDup) as (Hwritten & Hin & _).
  split; [exact Hwritten|].
  exact (Hin "UP"%string (0, 0, 1, 0.2)%float ltac:(right; left; reflexivity)).
Defined.

Lemma sample_keys_disjoint :
  forall key, In key sample_special_keys -> ~ In key sample_keys.
Proof.
  intros key [<-|[<-|[]]] [E|[E|[E|[]]]]; discriminate E.
Qed.

Lemma signalSpecialKeys_silent_witness :
  let m' := signalSpecialKeys sample_testReport_all sample_special_keys report_M1 init in
  _uinput m' = [] /\
  _lastKeyState m' !! "M1"%string = Some true /\
  written (_synthesizeKeys sample_keys sample_testReport_all full_profile report_M1) m'
  = [UWrite EV_KEY 30 1; UWrite EV_KEY 48 1].
Proof.
  destruct (signalSpecialKeys_silent sample_keys sample_testReport_all
              sample_special_keys full_profile report_M1 report_M1 init
              sample_keys_NoDup sample_keys_disjoint)
    as (Hquiet & _ & Hin & _ & Hsame).
  split; [exact Hquiet|].
  split; [exact (Hin "M1"%string ltac:(left; reflexivity))|].
  cbv zeta. rewrite Hsame. vm_compute. reflexivity.
Defined.



Lemma discover_waits_for_device_witness :
  mgr (run (repeat absent 50) start) = init /\
  waiting (pc (run (repeat absent 50) start)) = true.
Proof.
  apply (discover_waits_for_device sample_keys sample_testReport
           (repeat nothing_there 50)).
  apply List.Forall_forall. intros w Hw. apply repeat_spec in Hw. subst w. reflexivity.
Defined.

Lemma shutdown_ignored_while_finding_witness :
  let c' := run [absent; Call_shutdown; absent; absent; absent; absent] searching in
  finding_loop (pc c') = true /\ _device (mgr c') = None /\
  _state (mgr c') = SHUTDOWN.
Proof.
  destruct (shutdown_ignored_while_finding sample_keys sample_testReport
              [absent; Call_shutdown; absent; absent; absent; absent] searching
              eq_refl eq_refl eq_refl) as (Hloop & Hdev & Hstate).
  split; [exact Hloop|]. split; [exact Hdev | exact (Hstate eq_refl)].
Defined.

Lemma shutdown_lost_while_claiming_witness :
  let c' := run (Call_shutdown :: repeat ok 7) finding in
  pc c' = ReadKeys /\ _state (mgr c') = FOUND /\ _device (mgr c') = Some sample_device.
Proof.
  exact (shutdown_lost_while_claiming sample_keys sample_testReport sample_profile
           sample_device sample_device finding ltac:(discriminate) eq_refl).
Defined.

Lemma claim_error_retries_witness :
  let c' := run [io_error; absent; absent; absent; absent] claiming_reset in
  pc c' = FindTest /\ _device (mgr c') = None /\ _state (mgr c') = DISCOVERING /\
  _commandQueue (mgr c') = [] /\
  usb_calls (mgr c') = [DevReset; DevReset; DisposeResources].
Proof.
  exact (claim_error_retries sample_keys sample_testReport sample_device 5
           (failing sample_profile sample_device 5)
           nothing_there nothing_there nothing_there nothing_there
           claiming_reset eq_refl eq_refl eq_refl eq_refl).
Defined.



Lemma normalise_unit_range_witness :
  inRegion (normalise 51) (normalise 204) (0, 0, 1, 1)%float = true /\
  (51 < 204 -> PrimFloat.ltb (normalise 51) (normalise 204) = true).
Proof. apply (normalise_unit_range 51 204); lia. Defined.

(** A frame pushed by [update] on the sample session: refused while the
    device is being looked for, queued once it has been found. *)
Example update_on_sample_session :
  fst (update Display.black_image (mgr searching)) = Raise StateError /\
  fst (update Display.low_image (mgr searching)) = Raise IndexError /\
  _commandQueue (snd (update Display.black_image (mgr discovered)))
  = [SetLCDBuffer (repeat 255 800 ++ repeat 7 160)].
Proof. repeat split; vm_compute; reflexivity. Qed.

End Manager.
